(** * The installer of oh-my-opencode-slim: [src/cli/install.ts]

    A shallow embedding of the install command and the properties of its
    orchestration.

    The command talks to its surroundings only through the collaborators of
    [./config-manager], the console and the standard input stream.  Each of
    these is a call of a small program monad; a handler over some state of
    the world answers the calls, and a run is the outcome of the program
    together with the log of the calls it made, each with the answer it
    got.  The theorems hold for every handler and every state.

    The collaborators answer with a value, as their signatures say.  The
    one call that may fail is the read of the standard input, whose promise
    may be rejected: the [await] then throws, and since the source catches
    nothing, the exception leaves [install].

    The source runs on one thread and awaits every asynchronous call before
    it goes on, so a program is a sequence of calls. *)

From Stdlib Require Import String Ascii List ZArith Bool Arith Lia DecimalString.
Import ListNotations.
Open Scope string_scope.

Set Implicit Arguments.

(* ===================================================================== *)
(** ** Strings of the platform *)
(* ===================================================================== *)

(** JavaScript strings are modelled as Rocq strings holding the UTF-8 bytes
    of the text.  A chunk read from the standard input is such a byte
    string, and [TextDecoder().decode] keeps its bytes; a malformed
    sequence, which the decoder would replace by U+FFFD, stays as it is:
    either way it is neither white space nor a letter. *)

Definition ESC : string := String "027"%char EmptyString.
Definition LF : string := String "010"%char EmptyString.

Definition byte (c : ascii) : N := N_of_ascii c.

(** One-byte members of ECMAScript WhiteSpace and LineTerminator:
    TAB, LF, VT, FF, CR and SPACE. *)
Definition ws1 (c : ascii) : bool :=
  let n := byte c in
  ((9 <=? n) && (n <=? 13))%N || (n =? 32)%N.

(** U+00A0, encoded C2 A0. *)
Definition ws2 (c1 c2 : ascii) : bool :=
  ((byte c1 =? 194) && (byte c2 =? 160))%N.

(** U+1680 (E1 9A 80), U+2000..U+200A (E2 80 80..8A), U+2028, U+2029,
    U+202F (E2 80 A8, A9, AF), U+205F (E2 81 9F), U+3000 (E3 80 80) and
    U+FEFF (EF BB BF). *)
Definition ws3 (c1 c2 c3 : ascii) : bool :=
  let a := byte c1 in
  let b := byte c2 in
  let c := byte c3 in
  ((a =? 225) && (b =? 154) && (c =? 128))%N
  || ((a =? 226) && (b =? 128)
      && (((128 <=? c) && (c <=? 138)) || (c =? 168) || (c =? 169) || (c =? 175)))%N
  || ((a =? 226) && (b =? 129) && (c =? 159))%N
  || ((a =? 227) && (b =? 128) && (c =? 128))%N
  || ((a =? 239) && (b =? 187) && (c =? 191))%N.

(** Drops the white space a string starts with.  With [backwards] the
    string is read from its end, so the bytes of a character come last
    byte first. *)
Fixpoint dropSpace (backwards : bool) (s : string) : string :=
  match s with
  | EmptyString => EmptyString
  | String c1 s1 =>
      if ws1 c1 then dropSpace backwards s1
      else
        match s1 with
        | EmptyString => s
        | String c2 s2 =>
            if (if backwards then ws2 c2 c1 else ws2 c1 c2)
            then dropSpace backwards s2
            else
              match s2 with
              | EmptyString => s
              | String c3 s3 =>
                  if (if backwards then ws3 c3 c2 c1 else ws3 c1 c2 c3)
                  then dropSpace backwards s3
                  else s
              end
        end
  end.

Fixpoint reverse (acc s : string) : string :=
  match s with
  | EmptyString => acc
  | String c s' => reverse (String c acc) s'
  end.

(** [String.prototype.trim]. *)
Definition trim (s : string) : string :=
  reverse "" (dropSpace true (reverse "" (dropSpace false s))).

Definition lowerAscii (c : ascii) : ascii :=
  let n := byte c in
  if ((65 <=? n) && (n <=? 90))%N then ascii_of_N (n + 32) else c.

(** [String.prototype.toLowerCase] on the letters A to Z.  Bytes of other
    characters stay as they are: no character outside A to Z has a lower
    case form made of the letters that [askYesNo] compares with, and none
    has an empty one, so the answers below do not depend on them. *)
Fixpoint toLowerCase (s : string) : string :=
  match s with
  | EmptyString => EmptyString
  | String c s' => String (lowerAscii c) (toLowerCase s')
  end.

(** [new TextDecoder().decode(value)]: the text of a chunk, as its bytes. *)
Definition decode (value : string) : string := value.

(** [s.repeat(n)]. *)
Fixpoint repeat_string (s : string) (n : nat) : string :=
  match n with
  | O => ""
  | S n' => s ++ repeat_string s n'
  end.

(** [lines.join(sep)]. *)
Definition join (sep : string) (lines : list string) : string :=
  String.concat sep lines.

(** A number inside a template literal. *)
Definition showNumber (n : nat) : string :=
  NilEmpty.string_of_uint (Nat.to_uint n).

(** An optional string inside a template literal. *)
Definition showOptional (o : option string) : string :=
  match o with
  | Some s => s
  | None => "undefined"
  end.

(** [xs.includes(x)]. *)
Definition includes (xs : list string) (x : string) : bool :=
  existsb (String.eqb x) xs.

(* ===================================================================== *)
(** ** Data of [./types] and [./config-manager] *)
(* ===================================================================== *)

(** [BooleanArg] is the type of the literals [yes] and [no]; at run time a
    flag is whatever string the command line carried. *)
Definition BooleanArg : Type := string.

Record InstallArgs : Type := mkArgs {
  tui : bool;
  antigravity : option BooleanArg;
  openai : option BooleanArg;
  cerebras : option BooleanArg
}.

Record InstallConfig : Type := mkConfig {
  hasAntigravity : bool;
  hasOpenAI : bool;
  hasCerebras : bool
}.

Record DetectedConfig : Type := mkDetected {
  isInstalled : bool;
  detectedAntigravity : bool;
  detectedOpenAI : bool;
  detectedCerebras : bool
}.

(** What a registration or persistence collaborator answers. *)
Record StepResult : Type := mkResult {
  success : bool;
  configPath : option string;
  error : option string
}.

(** What [reader.read()] settles to: a chunk ([value] is absent when the
    stream is closed), or a rejection. *)
Inductive ReadOutcome : Type :=
| ReadValue (value : option string)
| ReadRejected.

(* ===================================================================== *)
(** ** Programs *)
(* ===================================================================== *)

(** Everything the installer asks of its surroundings. *)
Inductive Call : Type :=
| DetectCurrentConfig
| IsOpenCodeInstalled
| GetOpenCodeVersion
| AddPluginToOpenCodeConfig
| AddAuthPlugins (config : InstallConfig)
| AddProviderConfig (config : InstallConfig)
| WriteLiteConfig (config : InstallConfig)
| ConsoleLog (line : string)
| StdoutWrite (text : string)
| GetReader
| ReaderRead
| ReleaseLock.

Definition resp (c : Call) : Type :=
  match c with
  | DetectCurrentConfig => DetectedConfig
  | IsOpenCodeInstalled => bool
  | GetOpenCodeVersion => option string
  | AddPluginToOpenCodeConfig => StepResult
  | AddAuthPlugins _ => StepResult
  | AddProviderConfig _ => StepResult
  | WriteLiteConfig _ => StepResult
  | ConsoleLog _ => unit
  | StdoutWrite _ => unit
  | GetReader => unit
  | ReaderRead => ReadOutcome
  | ReleaseLock => unit
  end.

(** A program returns, throws, or performs a call and goes on with its
    answer. *)
Inductive Prog (A : Type) : Type :=
| Ret (a : A)
| Throw
| Vis (c : Call) (k : resp c -> Prog A).

Arguments Throw {A}.

Fixpoint bind {A B : Type} (m : Prog A) (f : A -> Prog B) : Prog B :=
  match m with
  | Ret a => f a
  | Throw => Throw
  | Vis c k => Vis c (fun x => bind (k x) f)
  end.

Definition call (c : Call) : Prog (resp c) := Vis c (fun x => Ret x).

Declare Scope prog_scope.
Delimit Scope prog_scope with prog.
Notation "x <- m ;; k" := (bind m (fun x => k))
  (at level 61, m at next level, right associativity) : prog_scope.
Notation "m ;; k" := (bind m (fun _ => k))
  (at level 61, right associativity) : prog_scope.
Open Scope prog_scope.

(** [for (const x of xs) body(x)]. *)
Fixpoint forEach {A : Type} (xs : list A) (body : A -> Prog unit) : Prog unit :=
  match xs with
  | [] => Ret tt
  | x :: xs' => body x ;; forEach xs' body
  end.

(** An entry of the log: a call and its answer. *)
Definition Ev : Type := { c : Call & resp c }.

Definition ev (c : Call) (x : resp c) : Ev := existT resp c x.

Inductive Res (A : Type) : Type :=
| Returned (a : A)
| Thrown.

Arguments Thrown {A}.

Record Run (W A : Type) : Type := mkRun {
  outcome : Res A;
  trace : list Ev;
  final : W
}.

Section Exec.

(** The surroundings: a state and the answer to each call in it. *)
Variable W : Type.
Variable handle : forall c : Call, W -> resp c * W.

Fixpoint exec {A : Type} (p : Prog A) (w : W) : Run W A :=
  match p with
  | Ret a => mkRun (Returned a) [] w
  | Throw => mkRun Thrown [] w
  | Vis c k =>
      let (x, w1) := handle c w in
      let r := exec (k x) w1 in
      mkRun (outcome r) (ev c x :: trace r) (final r)
  end.

End Exec.

(* ===================================================================== *)
(** ** The source, function by function *)
(* ===================================================================== *)

Definition GREEN : string := ESC ++ "[32m".
Definition BLUE : string := ESC ++ "[34m".
Definition YELLOW : string := ESC ++ "[33m".
Definition RED : string := ESC ++ "[31m".
Definition BOLD : string := ESC ++ "[1m".
Definition DIM : string := ESC ++ "[2m".
Definition RESET : string := ESC ++ "[0m".

Module SYMBOLS.
Definition check : string := GREEN ++ "✓" ++ RESET.
Definition cross : string := RED ++ "✗" ++ RESET.
Definition arrow : string := BLUE ++ "→" ++ RESET.
Definition bullet : string := DIM ++ "•" ++ RESET.
Definition info : string := BLUE ++ "ℹ" ++ RESET.
Definition warn : string := YELLOW ++ "⚠" ++ RESET.
Definition star : string := YELLOW ++ "★" ++ RESET.
End SYMBOLS.

Definition console_log (line : string) : Prog unit := call (ConsoleLog line).
Definition stdout_write (text : string) : Prog unit := call (StdoutWrite text).

Definition detectCurrentConfig : Prog DetectedConfig := call DetectCurrentConfig.
Definition isOpenCodeInstalled : Prog bool := call IsOpenCodeInstalled.
Definition getOpenCodeVersion : Prog (option string) := call GetOpenCodeVersion.
Definition addPluginToOpenCodeConfig : Prog StepResult :=
  call AddPluginToOpenCodeConfig.
Definition addAuthPlugins (config : InstallConfig) : Prog StepResult :=
  call (AddAuthPlugins config).
Definition addProviderConfig (config : InstallConfig) : Prog StepResult :=
  call (AddProviderConfig config).
Definition writeLiteConfig (config : InstallConfig) : Prog StepResult :=
  call (WriteLiteConfig config).

(** [Bun.stdin.stream().getReader()]. *)
Definition getReader : Prog unit := call GetReader.

(** [await reader.read()]: a rejected read throws at the [await]. *)
Definition read : Prog (option string) :=
  Vis ReaderRead (fun o =>
    match o with
    | ReadValue value => Ret value
    | ReadRejected => Throw
    end).

Definition releaseLock : Prog unit := call ReleaseLock.

(** The title line of the header. *)
Definition headerTitle (isUpdate : bool) : string :=
  let mode := if isUpdate then "Update" else "Install" in
  BOLD ++ "oh-my-opencode-slim " ++ mode ++ RESET.

Definition printHeader (isUpdate : bool) : Prog unit :=
  console_log "" ;;
  console_log (headerTitle isUpdate) ;;
  console_log (repeat_string "=" 30) ;;
  console_log "".

(** The progress line of a step. *)
Definition stepLine (step total : nat) (message : string) : string :=
  DIM ++ "[" ++ showNumber step ++ "/" ++ showNumber total ++ "]" ++ RESET
      ++ " " ++ message.

Definition printStep (step total : nat) (message : string) : Prog unit :=
  console_log (stepLine step total message).

Definition printSuccess (message : string) : Prog unit :=
  console_log (SYMBOLS.check ++ " " ++ message).

Definition errorLine (message : string) : string :=
  SYMBOLS.cross ++ " " ++ RED ++ message ++ RESET.

Definition printError (message : string) : Prog unit :=
  console_log (errorLine message).

Definition printInfo (message : string) : Prog unit :=
  console_log (SYMBOLS.info ++ " " ++ message).

Definition warningLine (message : string) : string :=
  SYMBOLS.warn ++ " " ++ YELLOW ++ message ++ RESET.

Definition printWarning (message : string) : Prog unit :=
  console_log (warningLine message).

Definition formatConfigSummary (config : InstallConfig) : string :=
  let mark (b : bool) := if b then SYMBOLS.check else DIM ++ "○" ++ RESET in
  join LF
    [ BOLD ++ "Configuration Summary" ++ RESET;
      "";
      "  " ++ mark (hasAntigravity config) ++ " Antigravity";
      "  " ++ mark (hasOpenAI config) ++ " OpenAI";
      "  " ++ mark (hasCerebras config) ++ " Cerebras" ].

Record Validation : Type := mkValidation {
  valid : bool;
  errors : list string
}.

Definition requiredMessage (name : string) : string :=
  "--" ++ name ++ " is required (values: yes, no)".

Definition invalidMessage (name : string) (value : string) : string :=
  "Invalid --" ++ name ++ " value: " ++ value ++ " (expected: yes, no)".

(** What one flag adds to [errors]; the source has this block three times,
    once for each flag, with nothing but the name changed. *)
Definition checkFlag (name : string) (value : option BooleanArg) : list string :=
  match value with
  | None => [ requiredMessage name ]
  | Some v =>
      if negb (includes ["yes"; "no"] v)
      then [ invalidMessage name v ]
      else []
  end.

Definition validateNonTuiArgs (args : InstallArgs) : Validation :=
  let errors : list string := [] in
  let errors := (errors ++ checkFlag "antigravity" (antigravity args))%list in
  let errors := (errors ++ checkFlag "openai" (openai args))%list in
  let errors := (errors ++ checkFlag "cerebras" (cerebras args))%list in
  mkValidation (List.length errors =? 0)%nat errors.

(** [flag === "yes"], false for an absent flag. *)
Definition isYes (flag : option BooleanArg) : bool :=
  match flag with
  | Some v => v =? "yes"
  | None => false
  end.

Definition argsToConfig (args : InstallArgs) : InstallConfig :=
  mkConfig (isYes (antigravity args)) (isYes (openai args)) (isYes (cerebras args)).

Definition detectedToInitialValues (detected : DetectedConfig)
  : BooleanArg * BooleanArg * BooleanArg :=
  ( if detectedAntigravity detected then "yes" else "no",
    if detectedOpenAI detected then "yes" else "no",
    if detectedCerebras detected then "yes" else "no" ).

(** The text [askYesNo] compares: empty when the read brought no value. *)
Definition answerOf (value : option string) : string :=
  match value with
  | Some v => toLowerCase (trim (decode v))
  | None => ""
  end.

(** The four returns at the end of [askYesNo]. *)
Definition interpret (defaultValue : BooleanArg) (answer : string) : BooleanArg :=
  if (answer =? "") || (answer =? LF) then defaultValue
  else if (answer =? "y") || (answer =? "yes") then "yes"
  else if (answer =? "n") || (answer =? "no") then "no"
  else defaultValue.

Definition askYesNo (prompt : string) (defaultValue : BooleanArg) : Prog BooleanArg :=
  let defaultHint := if defaultValue =? "yes" then "[Y/n]" else "[y/N]" in
  stdout_write (BLUE ++ prompt ++ RESET ++ " " ++ defaultHint ++ ": ") ;;
  getReader ;;
  value <- read ;;
  releaseLock ;;
  let answer := answerOf value in
  Ret (interpret defaultValue answer).

(** [InstallConfig | null] is an option. *)
Definition runTuiMode (detected : DetectedConfig) : Prog (option InstallConfig) :=
  let '(initialAntigravity, initialOpenai, initialCerebras) :=
    detectedToInitialValues detected in
  console_log (BOLD ++ "Question 1/3:" ++ RESET) ;;
  antigravity <- askYesNo "Do you have an Antigravity subscription?" initialAntigravity ;;
  console_log "" ;;
  console_log (BOLD ++ "Question 2/3:" ++ RESET) ;;
  openai <- askYesNo "Do you have access to OpenAI API?" initialOpenai ;;
  console_log "" ;;
  console_log (BOLD ++ "Question 3/3:" ++ RESET) ;;
  cerebras <- askYesNo "Do you have access to Cerebras API?" initialCerebras ;;
  console_log "" ;;
  Ret (Some (mkConfig (antigravity =? "yes") (openai =? "yes") (cerebras =? "yes"))).

Definition notInstalled : Prog Z :=
  printError "OpenCode is not installed on this system." ;;
  printInfo "Visit https://opencode.ai/docs for installation instructions" ;;
  Ret 1%Z.

Definition detectedLine (version : option string) : string :=
  "OpenCode " ++ match version with Some v => v | None => "" end ++ " detected".

(** [arrow dim-path reset] after the text of a success line. *)
Definition written (what : string) (result : StepResult) : string :=
  what ++ " " ++ SYMBOLS.arrow ++ " " ++ DIM ++ showOptional (configPath result) ++ RESET.

Definition failed (result : StepResult) : string :=
  "Failed: " ++ showOptional (error result).

Definition runInstall (args : InstallArgs) (config : InstallConfig) : Prog Z :=
  detected <- detectCurrentConfig ;;
  let isUpdate := isInstalled detected in
  printHeader isUpdate ;;
  let totalSteps := if hasAntigravity config then 5 else 3 in
  let step := 1 in
  (* Step 1: Check OpenCode *)
  printStep step totalSteps "Checking OpenCode installation..." ;;
  let step := step + 1 in
  installed <- isOpenCodeInstalled ;;
  if negb installed then notInstalled
  else
  version <- getOpenCodeVersion ;;
  printSuccess (detectedLine version) ;;
  (* Step 2: Add plugin *)
  printStep step totalSteps "Adding oh-my-opencode-slim plugin..." ;;
  let step := step + 1 in
  pluginResult <- addPluginToOpenCodeConfig ;;
  if negb (success pluginResult) then printError (failed pluginResult) ;; Ret 1%Z
  else
  printSuccess (written "Plugin added" pluginResult) ;;
  (* What follows the conditional block, which either returns or falls
     through to it with the step counter it has reached. *)
  let rest (step : nat) : Prog Z :=
    (* Step 5: Write lite config *)
    printStep step totalSteps "Writing oh-my-opencode-slim configuration..." ;;
    liteResult <- writeLiteConfig config ;;
    if negb (success liteResult) then printError (failed liteResult) ;; Ret 1%Z
    else
    printSuccess (written "Config written" liteResult) ;;
    (* Summary *)
    console_log "" ;;
    console_log (formatConfigSummary config) ;;
    console_log "" ;;
    if negb (hasAntigravity config) && negb (hasOpenAI config)
       && negb (hasCerebras config)
    then
      printWarning "No providers configured. At least one provider is required." ;;
      Ret 1%Z
    else
    console_log (SYMBOLS.star ++ " " ++ BOLD ++ GREEN
                 ++ (if isUpdate then "Configuration updated!"
                     else "Installation complete!") ++ RESET) ;;
    console_log "" ;;
    console_log (BOLD ++ "Next steps:" ++ RESET) ;;
    console_log "" ;;
    console_log "  1. Authenticate with your providers:" ;;
    console_log ("     " ++ BLUE ++ "$ opencode auth login" ++ RESET) ;;
    console_log "" ;;
    console_log "  2. Start OpenCode:" ;;
    console_log ("     " ++ BLUE ++ "$ opencode" ++ RESET) ;;
    console_log "" ;;
    Ret 0%Z
  in
  (* Step 3-4: Auth plugins and provider config (if Antigravity) *)
  if hasAntigravity config then
    printStep step totalSteps "Adding auth plugins..." ;;
    let step := step + 1 in
    authResult <- addAuthPlugins config ;;
    if negb (success authResult) then printError (failed authResult) ;; Ret 1%Z
    else
    printSuccess (written "Auth plugins configured" authResult) ;;
    printStep step totalSteps "Adding provider configurations..." ;;
    let step := step + 1 in
    providerResult <- addProviderConfig config ;;
    if negb (success providerResult) then printError (failed providerResult) ;; Ret 1%Z
    else
    printSuccess (written "Providers configured" providerResult) ;;
    rest step
  else rest step.

Definition bulletLine (err : string) : string :=
  "  " ++ SYMBOLS.bullet ++ " " ++ err.

Definition usage : string :=
  "Usage: bunx oh-my-opencode-slim install --no-tui --antigravity=<yes|no> --openai=<yes|no> --cerebras=<yes|no>".

Definition install (args : InstallArgs) : Prog Z :=
  if negb (tui args) then
    (* Non-TUI mode: validate args *)
    let validation := validateNonTuiArgs args in
    if negb (valid validation) then
      printHeader false ;;
      printError "Validation failed:" ;;
      forEach (errors validation) (fun err => console_log (bulletLine err)) ;;
      console_log "" ;;
      printInfo usage ;;
      console_log "" ;;
      Ret 1%Z
    else
    let config := argsToConfig args in
    runInstall args config
  else
  (* TUI mode *)
  detected <- detectCurrentConfig ;;
  printHeader (isInstalled detected) ;;
  printStep 1 1 "Checking OpenCode installation..." ;;
  installed <- isOpenCodeInstalled ;;
  if negb installed then notInstalled
  else
  version <- getOpenCodeVersion ;;
  printSuccess (detectedLine version) ;;
  console_log "" ;;
  config <- runTuiMode detected ;;
  match config with
  | None => Ret 1%Z
  | Some config => runInstall args config
  end.

(* ===================================================================== *)
(** ** Reading the log of a run *)
(* ===================================================================== *)

Definition callOf (e : Ev) : Call := projT1 e.

(** A call to one of the collaborators of [./config-manager]. *)
Definition isCollaborator (e : Ev) : bool :=
  match callOf e with
  | DetectCurrentConfig | IsOpenCodeInstalled | GetOpenCodeVersion
  | AddPluginToOpenCodeConfig | AddAuthPlugins _ | AddProviderConfig _
  | WriteLiteConfig _ => true
  | _ => false
  end.

(** A call to a registration or persistence collaborator. *)
Definition isRegistration (e : Ev) : bool :=
  match callOf e with
  | AddPluginToOpenCodeConfig | AddAuthPlugins _ | AddProviderConfig _
  | WriteLiteConfig _ => true
  | _ => false
  end.

(** The answer of a registration or persistence collaborator, if the entry
    is one. *)
Definition stepResult (e : Ev) : option StepResult :=
  match e with
  | existT _ c x =>
      match c return resp c -> option StepResult with
      | AddPluginToOpenCodeConfig | AddAuthPlugins _ | AddProviderConfig _
      | WriteLiteConfig _ => fun r => Some r
      | _ => fun _ => None
      end x
  end.

(** A step whose collaborator answered [success = false]. *)
Definition stepFailed (e : Ev) : bool :=
  match stepResult e with
  | Some r => negb (success r)
  | None => false
  end.

(** The answer of [isOpenCodeInstalled], if the entry is one. *)
Definition installedAnswer (e : Ev) : option bool :=
  match e with
  | existT _ c x =>
      match c return resp c -> option bool with
      | IsOpenCodeInstalled => fun b => Some b
      | _ => fun _ => None
      end x
  end.

(** [isOpenCodeInstalled] resolved false. *)
Definition resolvedFalse (e : Ev) : bool :=
  match installedAnswer e with
  | Some b => negb b
  | None => false
  end.

(** The line of a [console.log]. *)
Definition logged (e : Ev) : option string :=
  match callOf e with
  | ConsoleLog line => Some line
  | _ => None
  end.

Definition isConsoleLog (e : Ev) : bool :=
  match logged e with Some _ => true | None => false end.

(** After a step whose collaborator answered [success = false] the log
    holds one more entry and no other: the line of [printError] with the
    collaborator's message. *)
Fixpoint haltsAtFailure (tr : list Ev) : Prop :=
  match tr with
  | [] => True
  | e :: tr' =>
      match stepResult e with
      | Some r =>
          success r = false -> tr' = [ev (ConsoleLog (errorLine (failed r))) tt]
      | None => True
      end
      /\ haltsAtFailure tr'
  end.

(** Every step of the log reported success: the host was found and no
    registration or persistence collaborator failed. *)
Definition allSucceed (tr : list Ev) : bool :=
  forallb (fun e => negb (resolvedFalse e) && negb (stepFailed e)) tr.

(** The lines written with [console.log], in order. *)
Fixpoint loggedLines (tr : list Ev) : list string :=
  match tr with
  | [] => []
  | e :: tr' =>
      match logged e with
      | Some line => line :: loggedLines tr'
      | None => loggedLines tr'
      end
  end.

(** A progress line starts with the dimmed bracket of [printStep]. *)
Definition isProgress (line : string) : bool := prefix (DIM ++ "[") line.

Definition progressLines (tr : list Ev) : list string :=
  filter isProgress (loggedLines tr).

(** Progress lines numbered from [step] on, all showing [total]. *)
Fixpoint numbered (step total : nat) (messages : list string) : list string :=
  match messages with
  | [] => []
  | m :: ms => stepLine step total m :: numbered (S step) total ms
  end.



(** How many entries of the log are calls picked by [which]. *)
Definition calls (which : Call -> bool) (tr : list Ev) : nat :=
  List.length (filter (fun e => which (callOf e)) tr).

Definition isDetect (c : Call) : bool :=
  match c with DetectCurrentConfig => true | _ => false end.
Definition isInstalledCheck (c : Call) : bool :=
  match c with IsOpenCodeInstalled => true | _ => false end.
Definition isVersion (c : Call) : bool :=
  match c with GetOpenCodeVersion => true | _ => false end.
Definition isGetReader (c : Call) : bool :=
  match c with GetReader => true | _ => false end.
Definition isRead (c : Call) : bool :=
  match c with ReaderRead => true | _ => false end.
Definition isRelease (c : Call) : bool :=
  match c with ReleaseLock => true | _ => false end.

(** A flag that fails validation: missing, or neither [yes] nor [no]. *)
Definition offending (flag : option BooleanArg) : bool :=
  match flag with
  | None => true
  | Some v => negb ((v =? "yes") || (v =? "no"))
  end.

(** A validation message about the flag [name]. *)
Definition about (name : string) (message : string) : bool :=
  prefix ("--" ++ name ++ " ") message
  || prefix ("Invalid --" ++ name ++ " ") message.

Definition count (which : string -> bool) (messages : list string) : nat :=
  List.length (filter which messages).

Definition noProviders (config : InstallConfig) : bool :=
  negb (hasAntigravity config) && negb (hasOpenAI config)
  && negb (hasCerebras config).

(* ===================================================================== *)
(** ** A scripted host *)
(* ===================================================================== *)

(** A host whose collaborators answer from a fixed script; it counts the
    readers taken on the standard input and not yet released. *)
Record Host : Type := mkHost {
  hostInstalled : bool;
  hostVersion : option string;
  hostDetected : DetectedConfig;
  pluginAnswer : StepResult;
  authAnswer : StepResult;
  providerAnswer : StepResult;
  liteAnswer : StepResult;
  stdin : list ReadOutcome;
  held : nat
}.

Definition withStdin (h : Host) (rest : list ReadOutcome) (n : nat) : Host :=
  mkHost (hostInstalled h) (hostVersion h) (hostDetected h) (pluginAnswer h)
         (authAnswer h) (providerAnswer h) (liteAnswer h) rest n.

Definition scripted (c : Call) (h : Host) : resp c * Host :=
  match c return resp c * Host with
  | DetectCurrentConfig => (hostDetected h, h)
  | IsOpenCodeInstalled => (hostInstalled h, h)
  | GetOpenCodeVersion => (hostVersion h, h)
  | AddPluginToOpenCodeConfig => (pluginAnswer h, h)
  | AddAuthPlugins _ => (authAnswer h, h)
  | AddProviderConfig _ => (providerAnswer h, h)
  | WriteLiteConfig _ => (liteAnswer h, h)
  | ConsoleLog _ => (tt, h)
  | StdoutWrite _ => (tt, h)
  | GetReader => (tt, withStdin h (stdin h) (S (held h)))
  | ReaderRead =>
      match stdin h with
      | [] => (ReadValue None, h)
      | o :: rest => (o, withStdin h rest (held h))
      end
  | ReleaseLock => (tt, withStdin h (stdin h) (pred (held h)))
  end.

Definition ok (path : string) : StepResult := mkResult true (Some path) None.
Definition ko (message : string) : StepResult := mkResult false None (Some message).

(** A host with the application installed where every step succeeds. *)
Definition goodHost (lines : list ReadOutcome) : Host :=
  mkHost true (Some "1.0.0") (mkDetected true false true false)
         (ok "opencode.json") (ok "opencode.json") (ok "opencode.json")
         (ok "oh-my-opencode-slim.json") lines 0.

(** The same host with a plugin registration that fails. *)
Definition failingHost : Host :=
  mkHost true (Some "1.0.0") (mkDetected false false false false)
         (ko "EACCES") (ok "opencode.json") (ok "opencode.json")
         (ok "oh-my-opencode-slim.json") [] 0.

(** A machine without the host application. *)
Definition bareHost : Host :=
  mkHost false None (mkDetected false false false false)
         (ok "opencode.json") (ok "opencode.json") (ok "opencode.json")
         (ok "oh-my-opencode-slim.json") [] 0.

Definition enter : ReadOutcome := ReadValue (Some LF).

(** The bullets of a failed validation, as entries of the log. *)
Definition bullets (errs : list string) : list Ev :=
  map (fun err => ev (ConsoleLog (bulletLine err)) tt) errs.

(** What the log ends with when no provider is configured. *)
Definition noProvidersEnding (config : InstallConfig) (lite : StepResult) : list Ev :=
  [ ev (WriteLiteConfig config) lite;
    ev (ConsoleLog (SYMBOLS.check ++ " " ++ written "Config written" lite)) tt;
    ev (ConsoleLog "") tt;
    ev (ConsoleLog (formatConfigSummary config)) tt;
    ev (ConsoleLog "") tt;
    ev (ConsoleLog
          (warningLine "No providers configured. At least one provider is required."))
       tt ].

(** What the reads of the log settled to, in order. *)
Fixpoint readOutcomes (tr : list Ev) : list ReadOutcome :=
  match tr with
  | [] => []
  | existT _ c x :: tr' =>
      match c return resp c -> list ReadOutcome with
      | ReaderRead => fun o => o :: readOutcomes tr'
      | _ => fun _ => readOutcomes tr'
      end x
  end.

(** The text of the question, as written before the read. *)
Definition questionText (prompt : string) (defaultValue : BooleanArg) : string :=
  BLUE ++ prompt ++ RESET ++ " "
       ++ (if defaultValue =? "yes" then "[Y/n]" else "[y/N]") ++ ": ".

(** The four lines of [printHeader], as entries of the log. *)
Definition headerEvents (isUpdate : bool) : list Ev :=
  [ ev (ConsoleLog "") tt;
    ev (ConsoleLog (headerTitle isUpdate)) tt;
    ev (ConsoleLog (repeat_string "=" 30)) tt;
    ev (ConsoleLog "") tt ].

(** What a failed validation writes after the header. *)
Definition validationReport (errs : list string) : list Ev :=
  (ev (ConsoleLog (errorLine "Validation failed:")) tt :: bullets errs
   ++ [ ev (ConsoleLog "") tt;
        ev (ConsoleLog (SYMBOLS.info ++ " " ++ usage)) tt;
        ev (ConsoleLog "") tt ])%list.

(** Calls to [detectCurrentConfig], [isOpenCodeInstalled],
    [getOpenCodeVersion] and reads of the standard input, counted. *)
Definition preflightCalls (tr : list Ev) : nat * nat * nat * nat :=
  (calls isDetect tr, calls isInstalledCheck tr, calls isVersion tr,
   calls isRead tr).

Definition interactive : InstallArgs := mkArgs true None None None.

(** The flag a question resolves to, from the detected flag it is seeded
    with and the value its read settled with. *)
Definition resolved (seed : bool) (value : option string) : bool :=
  let answer := answerOf value in
  if (answer =? "y") || (answer =? "yes") then true
  else if (answer =? "n") || (answer =? "no") then false
  else seed.

(** Readers taken, reads made and readers released, counted. *)
Definition stdinCalls (tr : list Ev) : nat * nat * nat :=
  (calls isGetReader tr, calls isRead tr, calls isRelease tr).

(** A call that touches the standard input or writes a prompt. *)
Definition isPrompting (e : Ev) : bool :=
  match callOf e with
  | StdoutWrite _ | GetReader | ReaderRead | ReleaseLock => true
  | _ => false
  end.

(** The registration and persistence calls of a log, in order. *)
Definition registrationCalls (tr : list Ev) : list Call :=
  map callOf (filter isRegistration tr).

(** The registration and persistence calls of a complete run. *)
Definition plan (config : InstallConfig) : list Call :=
  (AddPluginToOpenCodeConfig
   :: (if hasAntigravity config
       then [AddAuthPlugins config; AddProviderConfig config]
       else [])
   ++ [WriteLiteConfig config])%list.

Definition isLite (c : Call) : bool :=
  match c with WriteLiteConfig _ => true | _ => false end.

(** The closing line of a successful run. *)
Definition successLine (isUpdate : bool) : string :=
  SYMBOLS.star ++ " " ++ BOLD ++ GREEN
    ++ (if isUpdate then "Configuration updated!" else "Installation complete!")
    ++ RESET.

(** Whether a line was written to the console. *)
Definition wasLogged (line : string) (tr : list Ev) : bool :=
  existsb (String.eqb line) (loggedLines tr).

(** What the calls of [isOpenCodeInstalled] resolved to, in order. *)
Fixpoint installedAnswers (tr : list Ev) : list bool :=
  match tr with
  | [] => []
  | e :: tr' =>
      match installedAnswer e with
      | Some b => b :: installedAnswers tr'
      | None => installedAnswers tr'
      end
  end.

(** The progress line of the check [install] makes before the questions. *)
Definition preflightLine : string :=
  stepLine 1 1 "Checking OpenCode installation...".

(** [allRuns p Q]: whatever the surroundings answer, the log and the
    outcome of [p] satisfy [Q]. *)
Fixpoint allRuns {A : Type} (p : Prog A) (Q : list Ev -> Res A -> Prop) : Prop :=
  match p with
  | Ret a => Q [] (Returned a)
  | Throw => Q [] Thrown
  | Vis c k => forall x : resp c, allRuns (k x) (fun tr r => Q (ev c x :: tr) r)
  end.

(* ===================================================================== *)
(** ** Running programs *)
(* ===================================================================== *)

Lemma allRuns_mono (A : Type) (p : Prog A) (P Q : list Ev -> Res A -> Prop) :
  (forall tr r, P tr r -> Q tr r) -> allRuns p P -> allRuns p Q.
Proof.
  revert P Q. induction p as [a | | c k IH]; intros P Q HPQ; simpl; auto.
  intros H x. apply (IH x (fun tr r => P (ev c x :: tr) r)); auto.
Qed.

Section Runs.

Variable W : Type.
Variable handle : forall c : Call, W -> resp c * W.

(** What holds of all runs holds of the run against any surroundings. *)
Lemma allRuns_exec (A : Type) (p : Prog A) (Q : list Ev -> Res A -> Prop) (w : W) :
  allRuns p Q -> Q (trace (exec handle p w)) (outcome (exec handle p w)).
Proof.
  revert Q w. induction p as [a | | c k IH]; intros Q w; simpl; auto.
  intros H. destruct (handle c w) as [x w1]. simpl.
  apply (IH x (fun tr r => Q (ev c x :: tr) r)). apply H.
Qed.

End Runs.

(** Unfolds the program down to its calls, leaving the texts alone. *)
Ltac unfold_prog :=
  cbn [allRuns resp bind call forEach console_log stdout_write
       detectCurrentConfig isOpenCodeInstalled getOpenCodeVersion
       addPluginToOpenCodeConfig addAuthPlugins addProviderConfig
       writeLiteConfig getReader read releaseLock
       printHeader printStep printSuccess printError printInfo printWarning
       notInstalled runTuiMode askYesNo detectedToInitialValues
       negb andb success isInstalled
       hasAntigravity hasOpenAI hasCerebras].

(** Follows a program call by call, splitting on each answer and each flag
    the program looks at. *)
Ltac walk :=
  repeat (unfold_prog;
          match goal with
          | |- forall x : unit, _ => intros []
          | |- forall x : bool, _ => intros []
          | |- forall x : StepResult, _ => intros [[] ? ?]
          | |- forall x : ReadOutcome, _ => intros [?|]
          | |- forall x : DetectedConfig, _ => intros [[] ? ? ?]
          | |- forall x : option string, _ => intro
          | |- allRuns (if ?b then _ else _) _ => is_var b; destruct b
          | |- allRuns (if ?b then _ else _) _ =>
              match b with context [negb ?v] => is_var v; destruct v end
          end).

Ltac each_config config :=
  destruct config as [? ? ?].

(** *** The orchestration *)

Lemma haltsAtFailure_split (pre post : list Ev) (e : Ev) (r : StepResult) :
  haltsAtFailure (pre ++ e :: post) ->
  stepResult e = Some r -> success r = false ->
  post = [ev (ConsoleLog (errorLine (failed r))) tt].
Proof.
  induction pre as [| e0 pre IH]; simpl.
  - intros [H _] He Hr. rewrite He in H. auto.
  - intros [_ H]. auto.
Qed.

Lemma stepFailed_result (e : Ev) :
  stepFailed e = true -> exists r, stepResult e = Some r /\ success r = false.
Proof.
  unfold stepFailed. destruct (stepResult e) as [r|]; [|discriminate].
  intros H. exists r. split; [reflexivity|].
  destruct (success r); [discriminate | reflexivity].
Qed.

Lemma runInstall_halts (args : InstallArgs) (config : InstallConfig) :
  allRuns (runInstall args config)
          (fun tr r => haltsAtFailure tr
                       /\ (existsb stepFailed tr = true -> r = Returned 1%Z)).
Proof.
  unfold runInstall. each_config config. walk.
  all: cbn; intuition (discriminate || reflexivity).
Qed.

(** C1.  In every run of [runInstall], a step whose collaborator answers
    [success = false] ends the run at once: the exit outcome is 1, and the
    log holds after the failing call only the line of [printError] with the
    collaborator's message, hence no call to any collaborator. *)
Theorem failed_step_halts_the_run
        (W : Type) (handle : forall c : Call, W -> resp c * W) (w : W)
        (args : InstallArgs) (config : InstallConfig)
        (pre post : list Ev) (e : Ev) :
  trace (exec handle (runInstall args config) w) = (pre ++ e :: post)%list ->
  stepFailed e = true ->
  outcome (exec handle (runInstall args config) w) = Returned 1%Z
  /\ existsb isCollaborator post = false
  /\ exists r, stepResult e = Some r
               /\ post = [ev (ConsoleLog (errorLine (failed r))) tt].
Proof.
  intros Htr He.
  destruct (allRuns_exec handle _ _ w (runInstall_halts args config)) as [Hh Hr].
  rewrite Htr in Hh, Hr.
  destruct (stepFailed_result e He) as [r [Hs Hf]].
  pose proof (haltsAtFailure_split pre post e Hh Hs Hf) as Hp.
  split; [| split].
  - apply Hr. rewrite existsb_app. simpl. rewrite He.
    rewrite orb_true_r. reflexivity.
  - rewrite Hp. reflexivity.
  - exists r. auto.
Qed.

Lemma failed_step_halts_the_run_witness :
  let run := exec scripted (runInstall (mkArgs false (Some "yes") (Some "no") (Some "no"))
                                       (mkConfig true false false)) failingHost in
  outcome run = Returned 1%Z
  /\ existsb isCollaborator [ev (ConsoleLog (errorLine (failed (ko "EACCES")))) tt] = false.
Proof.
  intros run.
  destruct (@failed_step_halts_the_run Host scripted failingHost
              (mkArgs false (Some "yes") (Some "no") (Some "no"))
              (mkConfig true false false)
              (firstn 10 (trace run))
              [ev (ConsoleLog (errorLine (failed (ko "EACCES")))) tt]
              (ev AddPluginToOpenCodeConfig (ko "EACCES")))
    as [H1 [H2 _]].
  - vm_compute. reflexivity.
  - reflexivity.
  - split; assumption.
Defined.

(** *** The preflight *)

Lemma allRuns_bullets (A : Type) (errs : list string) (k : Prog A)
      (Q : list Ev -> Res A -> Prop) :
  allRuns k (fun tr r => Q (bullets errs ++ tr)%list r) ->
  allRuns (forEach errs (fun err => console_log (bulletLine err)) ;; k) Q.
Proof.
  revert Q. induction errs as [| err errs IH]; intros Q H.
  - exact H.
  - cbn [forEach bind console_log call allRuns resp]. intros [].
    apply IH. exact H.
Qed.

Lemma bullets_quiet (errs tr : list Ev) (f : Ev -> bool) :
  (forall e, isConsoleLog e = true -> f e = false) ->
  Forall (fun e => isConsoleLog e = true) errs ->
  existsb f (errs ++ tr) = existsb f tr.
Proof.
  intros Hf H. induction H as [| e errs He _ IH]; simpl; auto.
  rewrite (Hf e He). exact IH.
Qed.

Lemma bullets_logged (errs : list string) :
  Forall (fun e => isConsoleLog e = true) (bullets errs).
Proof.
  induction errs; simpl; constructor; auto.
Qed.

Lemma resolvedFalse_quiet (e : Ev) : isConsoleLog e = true -> resolvedFalse e = false.
Proof. destruct e as [[] x]; simpl; intros; try discriminate; reflexivity. Qed.

Lemma runInstall_preflight (args : InstallArgs) (config : InstallConfig) :
  allRuns (runInstall args config)
          (fun tr r => existsb resolvedFalse tr = true ->
                       r = Returned 1%Z /\ existsb isRegistration tr = false).
Proof.
  unfold runInstall. each_config config. walk.
  all: cbn; intuition (discriminate || reflexivity).
Qed.

Lemma install_preflight (args : InstallArgs) :
  allRuns (install args)
          (fun tr r => existsb resolvedFalse tr = true ->
                       r = Returned 1%Z /\ existsb isRegistration tr = false).
Proof.
  unfold install. destruct (tui args); cbn [negb].
  - walk.
    all: try (cbn; intuition (discriminate || reflexivity)).
    all: eapply allRuns_mono; [| apply runInstall_preflight].
    all: cbn; intuition.
  - destruct (valid (validateNonTuiArgs args)); cbn [negb].
    + apply runInstall_preflight.
    + walk. apply allRuns_bullets. walk.
      cbn [existsb resolvedFalse installedAnswer ev orb].
      rewrite (bullets_quiet _ _ resolvedFalse_quiet (bullets_logged _)).
      cbn. discriminate.
Qed.

(** C2.  In either mode, when [isOpenCodeInstalled] resolves false the run
    exits with outcome 1 and the log holds no call to
    [addPluginToOpenCodeConfig], [addAuthPlugins], [addProviderConfig] or
    [writeLiteConfig]. *)
Theorem host_missing_stops_the_run
        (W : Type) (handle : forall c : Call, W -> resp c * W) (w : W)
        (args : InstallArgs) :
  existsb resolvedFalse (trace (exec handle (install args) w)) = true ->
  outcome (exec handle (install args) w) = Returned 1%Z
  /\ existsb isRegistration (trace (exec handle (install args) w)) = false.
Proof.
  exact (allRuns_exec handle _ _ w (install_preflight args)).
Qed.

Lemma host_missing_stops_the_run_witness :
  outcome (exec scripted (install (mkArgs true None None None)) bareHost)
  = Returned 1%Z
  /\ outcome (exec scripted
                (install (mkArgs false (Some "yes") (Some "no") (Some "no")))
                bareHost)
     = Returned 1%Z.
Proof.
  split.
  - apply (@host_missing_stops_the_run Host scripted bareHost
             (mkArgs true None None None)).
    vm_compute. reflexivity.
  - apply (@host_missing_stops_the_run Host scripted bareHost
             (mkArgs false (Some "yes") (Some "no") (Some "no"))).
    vm_compute. reflexivity.
Defined.

(** *** The post-condition *)

Ltac ending :=
  match goal with
  | |- exists pre lite, ?tr = _ /\ _ =>
      exists (firstn (List.length tr - 6) tr); eexists; split; reflexivity
  end.

Lemma runInstall_postcondition (args : InstallArgs) (config : InstallConfig) :
  allRuns (runInstall args config)
          (fun tr r =>
             allSucceed tr = true ->
             r = Returned (if noProviders config then 1%Z else 0%Z)
             /\ (noProviders config = true ->
                 exists pre lite,
                   tr = (pre ++ noProvidersEnding config lite)%list
                   /\ success lite = true)).
Proof.
  unfold runInstall. each_config config. walk.
  all: cbn [allSucceed forallb resolvedFalse stepFailed installedAnswer
            stepResult ev negb andb success noProviders hasAntigravity
            hasOpenAI hasCerebras].
  all: try discriminate.
  all: intros _; split; [reflexivity |]; intros Hn; try discriminate Hn.
  all: ending.
Qed.

(** C3.  Whatever the configuration, a run of [runInstall] in which the
    host is found and every delegated step succeeds exits with 1 exactly
    when the three capability flags are all false, and with 0 otherwise; in
    the first case the log ends with the call of [writeLiteConfig], its
    success line, the summary and, last, the warning that no providers are
    configured.  The check comes after the last persistence step and is
    under no other condition. *)
Theorem no_providers_fails_the_run
        (W : Type) (handle : forall c : Call, W -> resp c * W) (w : W)
        (args : InstallArgs) (config : InstallConfig) :
  allSucceed (trace (exec handle (runInstall args config) w)) = true ->
  outcome (exec handle (runInstall args config) w)
  = Returned (if noProviders config then 1%Z else 0%Z)
  /\ (hasAntigravity config = false -> hasOpenAI config = false ->
      hasCerebras config = false ->
      outcome (exec handle (runInstall args config) w) = Returned 1%Z
      /\ exists pre lite,
           trace (exec handle (runInstall args config) w)
           = (pre ++ noProvidersEnding config lite)%list
           /\ success lite = true).
Proof.
  intros Hs.
  destruct (allRuns_exec handle _ _ w (runInstall_postcondition args config) Hs)
    as [Hr He].
  split; [exact Hr |].
  intros Ha Ho Hc.
  assert (Hn : noProviders config = true).
  { unfold noProviders. rewrite Ha, Ho, Hc. reflexivity. }
  rewrite Hn in Hr. split; [exact Hr | exact (He Hn)].
Qed.

Lemma no_providers_fails_the_run_witness :
  outcome (exec scripted
             (runInstall (mkArgs false (Some "no") (Some "no") (Some "no"))
                         (mkConfig false false false))
             (goodHost []))
  = Returned 1%Z.
Proof.
  apply (@no_providers_fails_the_run Host scripted (goodHost [])
           (mkArgs false (Some "no") (Some "no") (Some "no"))
           (mkConfig false false false)).
  - vm_compute. reflexivity.
  - reflexivity.
  - reflexivity.
  - reflexivity.
Defined.

(** *** The step count *)

Ltac progress_messages :=
  let m1 := constr:("Checking OpenCode installation...") in
  let m2 := constr:("Adding oh-my-opencode-slim plugin...") in
  let m3 := constr:("Adding auth plugins...") in
  let m4 := constr:("Adding provider configurations...") in
  let m5 := constr:("Writing oh-my-opencode-slim configuration...") in
  first [ exists [m1]; split; [discriminate | reflexivity]
        | exists [m1; m2]; split; [discriminate | reflexivity]
        | exists [m1; m2; m5]; split; [discriminate | reflexivity]
        | exists [m1; m2; m3]; split; [discriminate | reflexivity]
        | exists [m1; m2; m3; m4]; split; [discriminate | reflexivity]
        | exists [m1; m2; m3; m4; m5]; split; [discriminate | reflexivity] ].

Lemma runInstall_progress (args : InstallArgs) (config : InstallConfig) :
  allRuns (runInstall args config)
          (fun tr r =>
             exists messages,
               messages <> []
               /\ progressLines tr
                  = numbered 1 (if hasAntigravity config then 5 else 3) messages).
Proof.
  unfold runInstall. each_config config. walk.
  all: cbn [hasAntigravity]; progress_messages.
Qed.

(** The scenario of the specification: Antigravity alone, every step
    succeeding, shows five steps and exits with 0. *)
Example five_steps_reported :
  let run := exec scripted
                  (install (mkArgs false (Some "yes") (Some "no") (Some "no")))
                  (goodHost []) in
  outcome run = Returned 0%Z
  /\ progressLines (trace run)
     = numbered 1 5 [ "Checking OpenCode installation...";
                      "Adding oh-my-opencode-slim plugin...";
                      "Adding auth plugins...";
                      "Adding provider configurations...";
                      "Writing oh-my-opencode-slim configuration..." ].
Proof. split; reflexivity. Qed.

(** The interactive mode checks the host once on its own, in [install],
    before the questions; that line is numbered 1 of 1 and comes before
    the run of [runInstall] and its own lines. *)
Example interactive_preflight_line :
  progressLines (trace (exec scripted (install interactive)
                             (goodHost [enter; enter; enter])))
  = stepLine 1 1 "Checking OpenCode installation..."
    :: numbered 1 3 [ "Checking OpenCode installation...";
                      "Adding oh-my-opencode-slim plugin...";
                      "Writing oh-my-opencode-slim configuration..." ].
Proof. reflexivity. Qed.

(** *** Validation of the flags *)

Example validate_two_violations :
  errors (validateNonTuiArgs (mkArgs false None (Some "maybe") (Some "no")))
  = [ "--antigravity is required (values: yes, no)";
      "Invalid --openai value: maybe (expected: yes, no)" ].
Proof. reflexivity. Qed.

Lemma checkFlag_cases (name : string) (flag : option BooleanArg) :
  (offending flag = false /\ checkFlag name flag = [])
  \/ (offending flag = true
      /\ (checkFlag name flag = [requiredMessage name]
          \/ exists v, checkFlag name flag = [invalidMessage name v])).
Proof.
  destruct flag as [v |]; [| right; split; [reflexivity | left; reflexivity]].
  unfold checkFlag, offending, includes. cbn [existsb].
  rewrite orb_false_r.
  destruct ((v =? "yes") || (v =? "no")); cbn [negb].
  - left. split; reflexivity.
  - right. split; [reflexivity | right; exists v; reflexivity].
Qed.

(** C5.  [validateNonTuiArgs] looks at all three flags: it is valid exactly
    when no flag is missing or outside [yes], [no]; the list of errors
    holds one message for each offending flag, and for each flag exactly
    one message about it when it offends and none when it does not. *)
Theorem validation_collects_every_violation (args : InstallArgs) :
  let v := validateNonTuiArgs args in
  valid v = negb (offending (antigravity args) || offending (openai args)
                  || offending (cerebras args))
  /\ List.length (errors v)
     = (if offending (antigravity args) then 1 else 0)
       + (if offending (openai args) then 1 else 0)
       + (if offending (cerebras args) then 1 else 0)
  /\ count (about "antigravity") (errors v)
     = (if offending (antigravity args) then 1 else 0)
  /\ count (about "openai") (errors v)
     = (if offending (openai args) then 1 else 0)
  /\ count (about "cerebras") (errors v)
     = (if offending (cerebras args) then 1 else 0).
Proof.
  unfold validateNonTuiArgs. cbn [valid errors app].
  destruct (checkFlag_cases "antigravity" (antigravity args))
    as [[-> ->] | [-> [-> | [a ->]]]];
    destruct (checkFlag_cases "openai" (openai args))
      as [[-> ->] | [-> [-> | [o ->]]]];
    destruct (checkFlag_cases "cerebras" (cerebras args))
      as [[-> ->] | [-> [-> | [c ->]]]];
    repeat split; reflexivity.
Qed.

(** *** The questions *)

Example trim_lower_yes :
  toLowerCase (trim (String "009" "  YeS " ++ LF)) = "yes".
Proof. reflexivity. Qed.

Example trim_bare_newline : toLowerCase (trim LF) = "".
Proof. reflexivity. Qed.

Example trim_keeps_inner_space : trim " n o " = "n o".
Proof. reflexivity. Qed.

Lemma interpret_empty (d : BooleanArg) : interpret d "" = d.
Proof. reflexivity. Qed.

Lemma interpret_yes (d : BooleanArg) (answer : string) :
  answer = "y" \/ answer = "yes" -> interpret d answer = "yes".
Proof. intros [-> | ->]; reflexivity. Qed.

Lemma interpret_no (d : BooleanArg) (answer : string) :
  answer = "n" \/ answer = "no" -> interpret d answer = "no".
Proof. intros [-> | ->]; reflexivity. Qed.

Lemma interpret_other (d : BooleanArg) (answer : string) :
  answer <> "y" -> answer <> "yes" -> answer <> "n" -> answer <> "no" ->
  interpret d answer = d.
Proof.
  intros Hy Hyes Hn Hno. unfold interpret.
  apply String.eqb_neq in Hy, Hyes, Hn, Hno.
  rewrite Hy, Hyes, Hn, Hno. simpl.
  destruct ((answer =? "") || (answer =? LF)); reflexivity.
Qed.

Lemma askYesNo_runs (prompt : string) (d : BooleanArg) :
  allRuns (askYesNo prompt d)
          (fun tr r =>
             exists o,
               tr = ev (StdoutWrite (questionText prompt d)) tt
                    :: ev GetReader tt
                    :: ev ReaderRead o
                    :: match o with
                       | ReadValue _ => [ev ReleaseLock tt]
                       | ReadRejected => []
                       end
               /\ r = match o with
                      | ReadValue value => Returned (interpret d (answerOf value))
                      | ReadRejected => Thrown
                      end).
Proof.
  walk.
  - exists (ReadValue value). split; reflexivity.
  - exists ReadRejected. split; reflexivity.
Qed.

(** C6.  When the read of a question settles with [value] (absent when the
    stream was closed without data), [askYesNo] returns, and with [answer]
    the trimmed, lower-cased text of [value] (empty when absent) it
    returns: the default when [answer] is empty; [yes] when [answer] is [y]
    or [yes]; [no] when it is [n] or [no]; the default for every other
    answer. *)
Theorem askYesNo_resolves
        (W : Type) (handle : forall c : Call, W -> resp c * W) (w : W)
        (prompt : string) (d : BooleanArg) (value : option string) :
  readOutcomes (trace (exec handle (askYesNo prompt d) w)) = [ReadValue value] ->
  let answer := match value with
                | Some line => toLowerCase (trim line)
                | None => ""
                end in
  exists result,
    outcome (exec handle (askYesNo prompt d) w) = Returned result
    /\ (value = None -> result = d)
    /\ (answer = "" -> result = d)
    /\ (answer = "y" \/ answer = "yes" -> result = "yes")
    /\ (answer = "n" \/ answer = "no" -> result = "no")
    /\ (answer <> "y" -> answer <> "yes" -> answer <> "n" -> answer <> "no" ->
        result = d).
Proof.
  intros Hread answer.
  destruct (allRuns_exec handle _ _ w (askYesNo_runs prompt d)) as [o [Htr Hr]].
  rewrite Htr in Hread.
  assert (Ho : o = ReadValue value).
  { destruct o; simpl in Hread; [injection Hread; intros ->; reflexivity
                                | discriminate]. }
  subst o. exists (interpret d (answerOf value)).
  split; [exact Hr |].
  assert (Ha : answerOf value = answer) by (destruct value; reflexivity).
  rewrite Ha.
  repeat split.
  - intros ->. reflexivity.
  - intros ->. reflexivity.
  - apply interpret_yes.
  - apply interpret_no.
  - apply interpret_other.
Qed.

Lemma askYesNo_resolves_witness :
  exists result,
    outcome (exec scripted (askYesNo "Do you have access to OpenAI API?" "no")
                  (goodHost [ReadValue (Some ("Y" ++ LF))]))
    = Returned result
    /\ result = "yes".
Proof.
  destruct (@askYesNo_resolves Host scripted (goodHost [ReadValue (Some ("Y" ++ LF))])
              "Do you have access to OpenAI API?" "no" (Some ("Y" ++ LF)))
    as [result [Hr [_ [_ [Hy _]]]]].
  - reflexivity.
  - exists result. split; [exact Hr |]. apply Hy. left. reflexivity.
Defined.

Example askYesNo_any_case :
  map (fun line =>
         outcome (exec scripted (askYesNo "Do you have access to Cerebras API?" "no")
                       (goodHost [ReadValue (Some line)])))
      [ "y"; "Y"; "yes"; "YES"; "yEs" ++ LF; " Yes " ]
  = repeat (Returned "yes") 6
  /\ map (fun line =>
            outcome (exec scripted (askYesNo "Do you have access to Cerebras API?" "yes")
                          (goodHost [ReadValue (Some line)])))
         [ "n"; "N"; "no"; "NO"; "nO" ++ LF; " No " ]
     = repeat (Returned "no") 6.
Proof. split; reflexivity. Qed.

Example askYesNo_accepts_default :
  outcome (exec scripted (askYesNo "Do you have access to OpenAI API?" "yes")
                (goodHost [enter]))
  = Returned "yes".
Proof. reflexivity. Qed.

Example askYesNo_garbage_is_default :
  outcome (exec scripted (askYesNo "Do you have access to OpenAI API?" "no")
                (goodHost [ReadValue (Some ("maybe" ++ LF))]))
  = Returned "no".
Proof. reflexivity. Qed.

Example askYesNo_closed_stream :
  outcome (exec scripted (askYesNo "Do you have access to OpenAI API?" "yes")
                (goodHost [ReadValue None]))
  = Returned "yes".
Proof. reflexivity. Qed.

(** C8 fails when the read throws: the reader taken for the read is still
    held when [askYesNo] throws. *)
Lemma reader_leaks_when_read_throws :
  let run := exec scripted (askYesNo "Do you have access to OpenAI API?" "no")
                  (goodHost [ReadRejected]) in
  outcome run = Thrown
  /\ calls isGetReader (trace run) = 1
  /\ calls isRelease (trace run) = 0
  /\ held (final run) = 1.
Proof. repeat split; reflexivity. Qed.

(** C8, amended.  Every question takes one reader and reads once.  When
    the read settles, with data or with the stream closed, the reader is
    released right after the read and before the answer is returned; when
    the read throws, [askYesNo] throws at once and nothing is released. *)
Theorem reader_released_after_settled_read
        (W : Type) (handle : forall c : Call, W -> resp c * W) (w : W)
        (prompt : string) (d : BooleanArg) :
  exists o,
    trace (exec handle (askYesNo prompt d) w)
    = ev (StdoutWrite (questionText prompt d)) tt
      :: ev GetReader tt
      :: ev ReaderRead o
      :: match o with
         | ReadValue _ => [ev ReleaseLock tt]
         | ReadRejected => []
         end
    /\ outcome (exec handle (askYesNo prompt d) w)
       = match o with
         | ReadValue value => Returned (interpret d (answerOf value))
         | ReadRejected => Thrown
         end.
Proof.
  exact (allRuns_exec handle _ _ w (askYesNo_runs prompt d)).
Qed.

(** *** The header *)

Lemma calls_app (which : Call -> bool) (tr1 tr2 : list Ev) :
  calls which (tr1 ++ tr2) = calls which tr1 + calls which tr2.
Proof. unfold calls. rewrite filter_app, length_app. reflexivity. Qed.

Lemma loggedLines_app (tr1 tr2 : list Ev) :
  loggedLines (tr1 ++ tr2) = (loggedLines tr1 ++ loggedLines tr2)%list.
Proof.
  induction tr1 as [| e tr1 IH]; simpl; [reflexivity |].
  destruct (logged e); simpl; rewrite IH; reflexivity.
Qed.






Lemma install_invalid (args : InstallArgs) :
  tui args = false -> valid (validateNonTuiArgs args) = false ->
  allRuns (install args)
          (fun tr r =>
             tr = (headerEvents false
                   ++ validationReport (errors (validateNonTuiArgs args)))%list
             /\ r = Returned 1%Z).
Proof.
  intros Ht Hv. unfold install. rewrite Ht, Hv. cbn [negb].
  walk. apply allRuns_bullets. walk. split; reflexivity.
Qed.




(** *** The interactive mode *)

Lemma runInstall_calls (args : InstallArgs) (config : InstallConfig) :
  allRuns (runInstall args config)
          (fun tr r =>
             calls isDetect tr = 1
             /\ (existsb resolvedFalse tr = false ->
                 preflightCalls tr = (1, 1, 1, 0))).
Proof.
  unfold runInstall. each_config config. walk.
  all: split; [reflexivity |].
  all: cbn [existsb resolvedFalse installedAnswer ev negb orb];
    first [discriminate | intros _; reflexivity].
Qed.

Lemma runTuiMode_returns (detected : DetectedConfig) :
  allRuns (runTuiMode detected)
          (fun tr r =>
             r = Thrown
             \/ (preflightCalls tr = (0, 0, 0, 3)
                 /\ exists config, r = Returned (Some config))).
Proof.
  unfold runTuiMode. walk.
  all: first [ left; reflexivity
             | right; split; [reflexivity | eexists; reflexivity] ].
Qed.

Lemma install_interactive (args : InstallArgs) :
  tui args = true ->
  allRuns (install args)
          (fun tr r =>
             (r <> Thrown -> existsb resolvedFalse tr = false ->
              exists before questions after,
                tr = (before ++ questions ++ after)%list
                /\ preflightCalls before = (1, 1, 1, 0)
                /\ preflightCalls questions = (0, 0, 0, 3)
                /\ preflightCalls after = (1, 1, 1, 0))
             /\ (r = Returned 1%Z ->
                 existsb resolvedFalse tr = true \/ calls isDetect tr = 2)).
Proof.
  intros Ht. unfold install. rewrite Ht. cbn [negb]. walk.
  all: try (split; [intros Hr Hf; first [discriminate Hf | contradiction Hr; reflexivity]
                   | intros Hr; first [discriminate Hr | left; reflexivity]]).
  all: eapply allRuns_mono; [| apply runInstall_calls].
  all: intros tr r [Hd Hc]; split.
  all: try (intros _ Hf;
            refine (ex_intro _ [_; _; _; _; _; _; _; _; _; _] _);
            refine (ex_intro _ [_; _; _; _; _; _; _; _; _; _; _; _; _; _; _; _; _; _] _);
            exists tr; split; [reflexivity |];
            split; [reflexivity |]; split; [reflexivity |];
            apply Hc; exact Hf).
  all: intros _; right.
  all: match goal with
       | |- calls isDetect (?e :: ?l) = 2 =>
           change (calls isDetect ([e] ++ firstn 27 l ++ tr)%list = 2)
       end.
  all: rewrite !calls_app, Hd; reflexivity.
Qed.

(** C9.  In an interactive run that finds the host installed at each check
    and whose three reads settle, the log splits in three: before the
    questions, one call each to [detectCurrentConfig],
    [isOpenCodeInstalled] and [getOpenCodeVersion]; the three questions,
    with their three reads and none of these calls; after them, in
    [runInstall], one call each again.  So each is called twice. *)
Theorem interactive_run_checks_twice
        (W : Type) (handle : forall c : Call, W -> resp c * W) (w : W)
        (args : InstallArgs) :
  tui args = true ->
  existsb resolvedFalse (trace (exec handle (install args) w)) = false ->
  outcome (exec handle (install args) w) <> Thrown ->
  preflightCalls (trace (exec handle (install args) w)) = (2, 2, 2, 3)
  /\ exists before questions after,
       trace (exec handle (install args) w)
       = (before ++ questions ++ after)%list
       /\ preflightCalls before = (1, 1, 1, 0)
       /\ preflightCalls questions = (0, 0, 0, 3)
       /\ preflightCalls after = (1, 1, 1, 0).
Proof.
  intros Ht Hf Hr.
  destruct (allRuns_exec handle _ _ w (install_interactive args Ht)) as [H _].
  destruct (H Hr Hf) as [before [questions [after [Htr [Hb [Hq Ha]]]]]].
  split.
  - rewrite Htr. unfold preflightCalls in *. rewrite !calls_app.
    injection Hb as Hb1 Hb2 Hb3 Hb4. injection Hq as Hq1 Hq2 Hq3 Hq4.
    injection Ha as Ha1 Ha2 Ha3 Ha4.
    rewrite Hb1, Hb2, Hb3, Hb4, Hq1, Hq2, Hq3, Hq4, Ha1, Ha2, Ha3, Ha4.
    reflexivity.
  - exists before, questions, after. auto.
Qed.

Lemma interactive_run_checks_twice_witness :
  preflightCalls (trace (exec scripted (install interactive)
                              (goodHost [enter; enter; enter])))
  = (2, 2, 2, 3).
Proof.
  apply (@interactive_run_checks_twice Host scripted
           (goodHost [enter; enter; enter]) interactive).
  - reflexivity.
  - vm_compute. reflexivity.
  - vm_compute. discriminate.
Defined.

(** C10.  [runTuiMode] never returns null: unless a read throws, it returns
    a configuration after its three reads.  So in an interactive run of
    [install] an exit outcome of 1 comes from the preflight or from
    [runInstall], which was then entered and read the detected
    configuration a second time; the return of 1 for a null result is
    never taken. *)
Theorem runTuiMode_never_null
        (W : Type) (handle : forall c : Call, W -> resp c * W) (w : W)
        (detected : DetectedConfig) (args : InstallArgs) :
  outcome (exec handle (runTuiMode detected) w) <> Returned None
  /\ (outcome (exec handle (runTuiMode detected) w) <> Thrown ->
      calls isRead (trace (exec handle (runTuiMode detected) w)) = 3
      /\ exists config,
           outcome (exec handle (runTuiMode detected) w) = Returned (Some config))
  /\ (tui args = true ->
      outcome (exec handle (install args) w) = Returned 1%Z ->
      existsb resolvedFalse (trace (exec handle (install args) w)) = true
      \/ calls isDetect (trace (exec handle (install args) w)) = 2).
Proof.
  pose proof (allRuns_exec handle _ _ w (runTuiMode_returns detected)) as H.
  split; [| split].
  - destruct H as [H | [_ [config H]]]; rewrite H; discriminate.
  - intros Hr. destruct H as [H | [Hc H]]; [contradiction |].
    split; [| exact H]. injection Hc as _ _ _ Hc. exact Hc.
  - intros Ht.
    exact (proj2 (allRuns_exec handle _ _ w (install_interactive args Ht))).
Qed.

Lemma runTuiMode_never_null_witness :
  (exists config,
     outcome (exec scripted (runTuiMode (mkDetected true false true false))
                   (goodHost [enter; enter; enter]))
     = Returned (Some config))
  /\ calls isDetect
       (trace (exec scripted (install interactive)
                    (mkHost true None (mkDetected false false false false)
                            (ok "opencode.json") (ok "opencode.json")
                            (ok "opencode.json") (ok "oh-my-opencode-slim.json")
                            [enter; enter; enter] 0))) = 2.
Proof.
  pose proof (@runTuiMode_never_null Host scripted (goodHost [enter; enter; enter])
                (mkDetected true false true false) interactive) as [_ [H _]].
  pose proof (@runTuiMode_never_null Host scripted
                (mkHost true None (mkDetected false false false false)
                        (ok "opencode.json") (ok "opencode.json")
                        (ok "opencode.json") (ok "oh-my-opencode-slim.json")
                        [enter; enter; enter] 0)
                (mkDetected true false true false) interactive) as [_ [_ H2]].
  split.
  - apply H. vm_compute. discriminate.
  - destruct H2 as [H2 | H2].
    + reflexivity.
    + vm_compute. reflexivity.
    + vm_compute in H2. discriminate H2.
    + exact H2.
Defined.

(* ===================================================================== *)
(** ** Further properties of the installer *)
(* ===================================================================== *)

(** *** Flags that pass validation *)

Lemma offending_false (flag : option BooleanArg) :
  offending flag = false -> flag = Some "yes" \/ flag = Some "no".
Proof.
  destruct flag as [v |]; [| discriminate]. simpl.
  destruct (v =? "yes") eqn:Hy.
  - apply String.eqb_eq in Hy. subst v. auto.
  - destruct (v =? "no") eqn:Hn; [| discriminate].
    apply String.eqb_eq in Hn. subst v. auto.
Qed.

Lemma checkFlag_empty (name : string) (flag : option BooleanArg) :
  checkFlag name flag = [] -> flag = Some "yes" \/ flag = Some "no".
Proof.
  intros H. apply offending_false.
  destruct (checkFlag_cases name flag) as [[Ho _] | [_ [Hc | [v Hc]]]];
    [exact Ho | rewrite Hc in H; discriminate | rewrite Hc in H; discriminate].
Qed.

(** X1.  Arguments that pass [validateNonTuiArgs] carry, for each of the
    three flags, the literal [yes] or [no], and [argsToConfig] turns each
    into the boolean it names: nothing missing or malformed gets past the
    validation into the configuration. *)
Theorem valid_args_resolve_exactly (args : InstallArgs) :
  valid (validateNonTuiArgs args) = true ->
  antigravity args
  = Some (if hasAntigravity (argsToConfig args) then "yes" else "no")
  /\ openai args = Some (if hasOpenAI (argsToConfig args) then "yes" else "no")
  /\ cerebras args
     = Some (if hasCerebras (argsToConfig args) then "yes" else "no").
Proof.
  unfold validateNonTuiArgs. cbn [valid app]. intros H.
  apply Nat.eqb_eq in H. rewrite !length_app in H.
  assert (Ha : checkFlag "antigravity" (antigravity args) = [])
    by (apply length_zero_iff_nil; lia).
  assert (Ho : checkFlag "openai" (openai args) = [])
    by (apply length_zero_iff_nil; lia).
  assert (Hc : checkFlag "cerebras" (cerebras args) = [])
    by (apply length_zero_iff_nil; lia).
  apply checkFlag_empty in Ha, Ho, Hc.
  unfold argsToConfig. cbn [hasAntigravity hasOpenAI hasCerebras].
  destruct Ha as [-> | ->], Ho as [-> | ->], Hc as [-> | ->];
    repeat split; reflexivity.
Qed.

Lemma valid_args_resolve_exactly_witness :
  antigravity (mkArgs false (Some "yes") (Some "no") (Some "no")) = Some "yes".
Proof.
  apply (valid_args_resolve_exactly (mkArgs false (Some "yes") (Some "no") (Some "no"))).
  reflexivity.
Defined.

(** *** What a question returns *)

Lemma interpret_boolean (d : BooleanArg) (answer : string) :
  d = "yes" \/ d = "no" ->
  interpret d answer = "yes" \/ interpret d answer = "no".
Proof.
  intros Hd. unfold interpret.
  destruct ((answer =? "") || (answer =? LF)); [exact Hd |].
  destruct ((answer =? "y") || (answer =? "yes")); [left; reflexivity |].
  destruct ((answer =? "n") || (answer =? "no")); [right; reflexivity |].
  exact Hd.
Qed.

(** X2.  A question seeded with [yes] or [no] returns [yes] or [no]
    whatever is typed: the answer of [askYesNo] stays within [BooleanArg]
    although the typed text is arbitrary. *)
Theorem askYesNo_stays_boolean
        (W : Type) (handle : forall c : Call, W -> resp c * W) (w : W)
        (prompt : string) (d : BooleanArg) (result : BooleanArg) :
  d = "yes" \/ d = "no" ->
  outcome (exec handle (askYesNo prompt d) w) = Returned result ->
  result = "yes" \/ result = "no".
Proof.
  intros Hd Hr.
  destruct (allRuns_exec handle _ _ w (askYesNo_runs prompt d)) as [o [_ Ho]].
  rewrite Ho in Hr. destruct o as [value |]; [| discriminate].
  injection Hr as <-. apply interpret_boolean. exact Hd.
Qed.

Lemma askYesNo_stays_boolean_witness :
  exists result,
    outcome (exec scripted (askYesNo "Do you have access to OpenAI API?" "no")
                  (goodHost [ReadValue (Some ("perhaps" ++ LF))]))
    = Returned result
    /\ (result = "yes" \/ result = "no").
Proof.
  exists "no". split; [reflexivity |].
  apply (@askYesNo_stays_boolean Host scripted
           (goodHost [ReadValue (Some ("perhaps" ++ LF))])
           "Do you have access to OpenAI API?" "no" "no").
  - right. reflexivity.
  - reflexivity.
Defined.

(** *** The text of an answer *)

Lemma reverse_length (acc s : string) :
  String.length (reverse acc s) = String.length acc + String.length s.
Proof.
  revert acc. induction s as [| c s IH]; intros acc; simpl.
  - lia.
  - rewrite IH. simpl. lia.
Qed.

Lemma reverse_single (s : string) (c : ascii) :
  reverse "" s = String c "" -> s = String c "".
Proof.
  intros H. pose proof (reverse_length "" s) as Hl. rewrite H in Hl. simpl in Hl.
  destruct s as [| c1 [| c2 s]]; simpl in Hl; try lia.
  simpl in H. exact H.
Qed.

(** A string left by [dropSpace] starts with no one-byte white space. *)
Lemma dropSpace_bounded (backwards : bool) (n : nat) :
  forall s c rest,
    String.length s <= n ->
    dropSpace backwards s = String c rest -> ws1 c = false.
Proof.
  induction n as [| n IH]; intros s c rest Hn H.
  - destruct s; simpl in *; [discriminate | lia].
  - destruct s as [| c1 s1]; [discriminate |].
    simpl in H, Hn. destruct (ws1 c1) eqn:H1.
    + apply (IH s1 c rest); [lia | exact H].
    + destruct s1 as [| c2 s2]; [injection H as <- _; exact H1 |].
      simpl in Hn.
      destruct (if backwards then ws2 c2 c1 else ws2 c1 c2).
      * apply (IH s2 c rest); [lia | exact H].
      * destruct s2 as [| c3 s3]; [injection H as <- _; exact H1 |].
        simpl in Hn.
        destruct (if backwards then ws3 c3 c2 c1 else ws3 c1 c2 c3).
        -- apply (IH s3 c rest); [lia | exact H].
        -- injection H as <- _. exact H1.
Qed.

Lemma trim_not_newline (s : string) : trim s <> LF.
Proof.
  unfold trim, LF. intros H. apply reverse_single in H.
  pose proof (@dropSpace_bounded true _ _ _ _ (le_n _) H) as Hw.
  discriminate Hw.
Qed.

Lemma lowerAscii_newline (c : ascii) : lowerAscii c = "010"%char -> c = "010"%char.
Proof.
  destruct c as [[] [] [] [] [] [] [] []]; vm_compute; intros H;
    first [reflexivity | discriminate H].
Qed.

Lemma toLowerCase_newline (s : string) : toLowerCase s = LF -> s = LF.
Proof.
  unfold LF. destruct s as [| c [| c2 s]]; simpl; intros H; try discriminate H.
  injection H as H. apply lowerAscii_newline in H. subst c. reflexivity.
Qed.

(** X3.  The text [askYesNo] compares is never a bare newline, whatever
    was read: [trim] leaves no white space at either end.  So the
    comparison of the answer with a newline never holds. *)
Theorem answer_is_never_a_newline (value : option string) :
  answerOf value <> LF.
Proof.
  destruct value as [v |]; [| discriminate].
  unfold answerOf, decode. intros H.
  apply toLowerCase_newline in H. exact (trim_not_newline v H).
Qed.

(** *** The three questions *)

Lemma interpret_resolved (seed : bool) (value : option string) :
  (interpret (if seed then "yes" else "no") (answerOf value) =? "yes")
  = resolved seed value.
Proof.
  unfold interpret, resolved. cbn zeta.
  destruct (answerOf value =? "") eqn:He.
  - apply String.eqb_eq in He. rewrite He. destruct seed; reflexivity.
  - destruct (answerOf value =? LF) eqn:Hl.
    + apply String.eqb_eq in Hl. rewrite Hl. destruct seed; reflexivity.
    + cbn [orb].
      destruct ((answerOf value =? "y") || (answerOf value =? "yes"));
        [reflexivity |].
      destruct ((answerOf value =? "n") || (answerOf value =? "no"));
        [reflexivity |].
      destruct seed; reflexivity.
Qed.

Lemma runTuiMode_resolves (detected : DetectedConfig) :
  allRuns (runTuiMode detected)
          (fun tr r =>
             forall v1 v2 v3,
               readOutcomes tr = [ReadValue v1; ReadValue v2; ReadValue v3] ->
               r = Returned
                     (Some (mkConfig (resolved (detectedAntigravity detected) v1)
                                     (resolved (detectedOpenAI detected) v2)
                                     (resolved (detectedCerebras detected) v3)))).
Proof.
  unfold runTuiMode. walk.
  all: intros Hread; cbn in Hread; try discriminate Hread.
  injection Hread as -> -> ->.
  rewrite !interpret_resolved. reflexivity.
Qed.

(** X4.  When the three reads of [runTuiMode] settle, it returns the
    configuration whose flags are, in the order Antigravity, OpenAI,
    Cerebras, what the first, second and third read resolve to: true for
    [y] or [yes], false for [n] or [no], and the detected flag of the same
    name for anything else.  Accepting every default gives back the
    detected flags. *)
Theorem runTuiMode_resolves_each_flag
        (W : Type) (handle : forall c : Call, W -> resp c * W) (w : W)
        (detected : DetectedConfig) (v1 v2 v3 : option string) :
  readOutcomes (trace (exec handle (runTuiMode detected) w))
  = [ReadValue v1; ReadValue v2; ReadValue v3] ->
  outcome (exec handle (runTuiMode detected) w)
  = Returned (Some (mkConfig (resolved (detectedAntigravity detected) v1)
                             (resolved (detectedOpenAI detected) v2)
                             (resolved (detectedCerebras detected) v3)))
  /\ (answerOf v1 = "" -> answerOf v2 = "" -> answerOf v3 = "" ->
      outcome (exec handle (runTuiMode detected) w)
      = Returned (Some (mkConfig (detectedAntigravity detected)
                                 (detectedOpenAI detected)
                                 (detectedCerebras detected)))).
Proof.
  intros Hread.
  pose proof (allRuns_exec handle _ _ w (runTuiMode_resolves detected)
                v1 v2 v3 Hread) as Hr.
  split; [exact Hr |].
  intros H1 H2 H3. rewrite Hr. unfold resolved. rewrite H1, H2, H3. reflexivity.
Qed.

Lemma runTuiMode_resolves_each_flag_witness :
  outcome (exec scripted (runTuiMode (mkDetected true false true false))
                (goodHost [ReadValue (Some ("Y" ++ LF)); enter;
                           ReadValue (Some ("no" ++ LF))]))
  = Returned (Some (mkConfig true true false)).
Proof.
  apply (@runTuiMode_resolves_each_flag Host scripted
           (goodHost [ReadValue (Some ("Y" ++ LF)); enter;
                      ReadValue (Some ("no" ++ LF))])
           (mkDetected true false true false)
           (Some ("Y" ++ LF)) (Some LF) (Some ("no" ++ LF))).
  reflexivity.
Defined.

(** *** Runs that ask nothing *)

Lemma calls_cons (which : Call -> bool) (e : Ev) (tr : list Ev) :
  calls which (e :: tr) = (if which (callOf e) then 1 else 0) + calls which tr.
Proof. unfold calls. simpl. destruct (which (callOf e)); reflexivity. Qed.

Lemma isPrompting_quiet (e : Ev) : isConsoleLog e = true -> isPrompting e = false.
Proof. destruct e as [[] x]; simpl; intros; try discriminate; reflexivity. Qed.

Lemma unprompted_stdinCalls (tr : list Ev) :
  existsb isPrompting tr = false -> stdinCalls tr = (0, 0, 0).
Proof.
  unfold stdinCalls. induction tr as [| e tr IH]; [reflexivity |].
  simpl. intros H. apply orb_false_iff in H. destruct H as [He Ht].
  specialize (IH Ht). injection IH as H1 H2 H3.
  rewrite !calls_cons, H1, H2, H3.
  destruct e as [[] x]; simpl in *; try discriminate He; reflexivity.
Qed.

Lemma runInstall_quiet (args : InstallArgs) (config : InstallConfig) :
  allRuns (runInstall args config)
          (fun tr r => r <> Thrown /\ existsb isPrompting tr = false).
Proof.
  unfold runInstall. each_config config. walk.
  all: split; [discriminate | reflexivity].
Qed.

Lemma install_noninteractive (args : InstallArgs) :
  tui args = false ->
  allRuns (install args)
          (fun tr r => r <> Thrown /\ existsb isPrompting tr = false).
Proof.
  intros Ht. unfold install. rewrite Ht. cbn [negb].
  destruct (valid (validateNonTuiArgs args)); cbn [negb].
  - apply runInstall_quiet.
  - walk. apply allRuns_bullets. walk. split; [discriminate |].
    cbn [existsb isPrompting callOf projT1 ev orb].
    rewrite (bullets_quiet _ _ isPrompting_quiet (bullets_logged _)).
    reflexivity.
Qed.

(** X5.  A non-interactive run never prompts and never touches the
    standard input: it writes no prompt, takes no reader and reads nothing,
    whatever the flags and whatever the collaborators answer; and it always
    returns an exit code. *)
Theorem noninteractive_run_asks_nothing
        (W : Type) (handle : forall c : Call, W -> resp c * W) (w : W)
        (args : InstallArgs) :
  tui args = false ->
  outcome (exec handle (install args) w) <> Thrown
  /\ existsb isPrompting (trace (exec handle (install args) w)) = false
  /\ stdinCalls (trace (exec handle (install args) w)) = (0, 0, 0).
Proof.
  intros Ht.
  destruct (allRuns_exec handle _ _ w (install_noninteractive args Ht)) as [Hr Hp].
  split; [exact Hr |]. split; [exact Hp |].
  apply unprompted_stdinCalls. exact Hp.
Qed.

Lemma noninteractive_run_asks_nothing_witness :
  stdinCalls (trace (exec scripted
                          (install (mkArgs false (Some "yes") None (Some "no")))
                          (goodHost [enter])))
  = (0, 0, 0).
Proof.
  apply (@noninteractive_run_asks_nothing Host scripted (goodHost [enter])
           (mkArgs false (Some "yes") None (Some "no"))).
  reflexivity.
Defined.

(** *** A failed validation *)

Lemma forallb_bullets (errs : list string) :
  forallb isConsoleLog (bullets errs) = true.
Proof. induction errs as [| err errs IH]; [reflexivity | exact IH]. Qed.

Lemma collaborators_bullets (errs : list string) :
  existsb isCollaborator (bullets errs) = false.
Proof. induction errs as [| err errs IH]; [reflexivity | exact IH]. Qed.

Lemma loggedLines_bullets (errs : list string) :
  loggedLines (bullets errs) = map bulletLine errs.
Proof.
  induction errs as [| err errs IH]; [reflexivity |].
  simpl. rewrite IH. reflexivity.
Qed.

(** X6.  When the flags of a non-interactive run fail validation, [install]
    returns 1 having called no collaborator at all: the log holds console
    lines only, which are the header, the line that validation failed, one
    bullet for each error of [validateNonTuiArgs] in their order, and the
    usage. *)
Theorem failed_validation_touches_nothing
        (W : Type) (handle : forall c : Call, W -> resp c * W) (w : W)
        (args : InstallArgs) :
  tui args = false -> valid (validateNonTuiArgs args) = false ->
  outcome (exec handle (install args) w) = Returned 1%Z
  /\ forallb isConsoleLog (trace (exec handle (install args) w)) = true
  /\ existsb isCollaborator (trace (exec handle (install args) w)) = false
  /\ loggedLines (trace (exec handle (install args) w))
     = ([ ""; headerTitle false; repeat_string "=" 30; "";
          errorLine "Validation failed:" ]
        ++ map bulletLine (errors (validateNonTuiArgs args))
        ++ [ ""; (SYMBOLS.info ++ " " ++ usage)%string; "" ])%list
  /\ errors (validateNonTuiArgs args) <> [].
Proof.
  intros Ht Hv.
  destruct (allRuns_exec handle _ _ w (install_invalid args Ht Hv)) as [Htr Hr].
  rewrite Htr. split; [exact Hr |].
  unfold validationReport.
  change (ev (ConsoleLog (errorLine "Validation failed:")) tt :: ?l)%list
    with ([ev (ConsoleLog (errorLine "Validation failed:")) tt] ++ l)%list.
  split; [| split; [| split]].
  - rewrite !forallb_app, forallb_bullets. reflexivity.
  - rewrite !existsb_app.
    rewrite collaborators_bullets. reflexivity.
  - rewrite !loggedLines_app, loggedLines_bullets. reflexivity.
  - intros He. unfold validateNonTuiArgs in Hv, He. cbn [valid errors] in Hv, He.
    rewrite He in Hv. discriminate Hv.
Qed.

Lemma failed_validation_touches_nothing_witness :
  outcome (exec scripted (install (mkArgs false None (Some "maybe") (Some "no")))
                (goodHost []))
  = Returned 1%Z.
Proof.
  apply (@failed_validation_touches_nothing Host scripted (goodHost [])
           (mkArgs false None (Some "maybe") (Some "no"))).
  - reflexivity.
  - reflexivity.
Defined.

(** *** Readers across a whole run *)

Lemma install_readers (args : InstallArgs) :
  allRuns (install args)
          (fun tr r =>
             exists k,
               k <= 3
               /\ stdinCalls tr
                  = (k, k, match r with Thrown => k - 1 | Returned _ => k end)
               /\ (r = Thrown -> 1 <= k)).
Proof.
  destruct (tui args) eqn:Ht.
  - unfold install. rewrite Ht. cbn [negb]. walk.
    all: try (exists 0; split; [lia | split; [reflexivity | discriminate]]).
    all: try (exists 1; split; [lia | split; [reflexivity | lia]]).
    all: try (exists 2; split; [lia | split; [reflexivity | lia]]).
    all: try (exists 3; split; [lia | split; [reflexivity | lia]]).
    all: eapply allRuns_mono; [| apply runInstall_quiet].
    all: intros tr r [Hr Hp]; apply unprompted_stdinCalls in Hp.
    all: injection Hp as H1 H2 H3.
    all: exists 3; split; [lia |]; split; [| intros; lia].
    all: unfold stdinCalls; rewrite !calls_cons, H1, H2, H3.
    all: destruct r; [reflexivity | contradiction].
  - eapply allRuns_mono; [| apply (install_noninteractive args Ht)].
    intros tr r [Hr Hp]. apply unprompted_stdinCalls in Hp.
    exists 0. split; [lia |]. split; [| intros; contradiction].
    rewrite Hp. destruct r; [reflexivity | contradiction].
Qed.

(** X7.  In every run of [install], in either mode, at most three readers
    are taken, each for exactly one read; when the run returns an exit
    code every reader taken was released, and when it throws exactly one,
    the last, was not. *)
Theorem readers_are_balanced
        (W : Type) (handle : forall c : Call, W -> resp c * W) (w : W)
        (args : InstallArgs) :
  exists k,
    k <= 3
    /\ stdinCalls (trace (exec handle (install args) w))
       = (k, k, match outcome (exec handle (install args) w) with
                | Thrown => k - 1
                | Returned _ => k
                end)
    /\ (outcome (exec handle (install args) w) = Thrown -> 1 <= k).
Proof.
  exact (allRuns_exec handle _ _ w (install_readers args)).
Qed.

(** *** What an exit code tells *)

Lemma runInstall_exit (args : InstallArgs) (config : InstallConfig) :
  allRuns (runInstall args config)
          (fun tr r =>
             (r = Returned 0%Z \/ r = Returned 1%Z)
             /\ (r = Returned 0%Z ->
                 installedAnswers tr = [true]
                 /\ allSucceed tr = true /\ noProviders config = false
                 /\ registrationCalls tr = plan config)
             /\ exists n, registrationCalls tr = firstn n (plan config)).
Proof.
  unfold runInstall. each_config config. walk.
  all: split; [first [left; reflexivity | right; reflexivity] |].
  all: split;
    [ first [ intros H; discriminate H
            | intros _; repeat split; reflexivity ] |].
  all: first [ exists 0; reflexivity | exists 1; reflexivity
             | exists 2; reflexivity | exists 3; reflexivity
             | exists 4; reflexivity ].
Qed.

(** X8.  [runInstall] always returns, and returns 0 or 1.  It returns 0
    only when [isOpenCodeInstalled] was called, once, and resolved true, no
    step failed, at least one capability flag is set and the whole plan
    was carried out. *)
Theorem exit_zero_means_all_done
        (W : Type) (handle : forall c : Call, W -> resp c * W) (w : W)
        (args : InstallArgs) (config : InstallConfig) :
  (outcome (exec handle (runInstall args config) w) = Returned 0%Z
   \/ outcome (exec handle (runInstall args config) w) = Returned 1%Z)
  /\ (outcome (exec handle (runInstall args config) w) = Returned 0%Z ->
      installedAnswers (trace (exec handle (runInstall args config) w)) = [true]
      /\ allSucceed (trace (exec handle (runInstall args config) w)) = true
      /\ noProviders config = false
      /\ registrationCalls (trace (exec handle (runInstall args config) w))
         = plan config).
Proof.
  destruct (allRuns_exec handle _ _ w (runInstall_exit args config))
    as [H1 [H2 _]].
  split; assumption.
Qed.

Lemma exit_zero_means_all_done_witness :
  installedAnswers
    (trace (exec scripted
                 (runInstall (mkArgs false (Some "yes") (Some "no") (Some "no"))
                             (mkConfig true false false))
                 (goodHost [])))
  = [true]
  /\ registrationCalls
       (trace (exec scripted
                    (runInstall (mkArgs false (Some "yes") (Some "no") (Some "no"))
                                (mkConfig true false false))
                    (goodHost [])))
     = plan (mkConfig true false false).
Proof.
  destruct (@exit_zero_means_all_done Host scripted (goodHost [])
              (mkArgs false (Some "yes") (Some "no") (Some "no"))
              (mkConfig true false false)) as [_ H].
  destruct (H eq_refl) as [Hi [_ [_ Hp]]].
  split; [exact Hi | exact Hp].
Defined.

(** X9.  The registration and persistence collaborators are called in one
    fixed order, each at most once and each with the configuration of the
    run: [addPluginToOpenCodeConfig], then [addAuthPlugins] and
    [addProviderConfig] when and only when [hasAntigravity] is set, then
    [writeLiteConfig].  The calls of any run are a beginning of that
    list. *)
Theorem steps_follow_the_plan
        (W : Type) (handle : forall c : Call, W -> resp c * W) (w : W)
        (args : InstallArgs) (config : InstallConfig) :
  exists n,
    registrationCalls (trace (exec handle (runInstall args config) w))
    = firstn n (plan config).
Proof.
  destruct (allRuns_exec handle _ _ w (runInstall_exit args config))
    as [_ [_ H]].
  exact H.
Qed.

(** *** The count that is shown and the steps that are run *)

Lemma runInstall_progress_count (args : InstallArgs) (config : InstallConfig) :
  allRuns (runInstall args config)
          (fun tr r =>
             List.length (progressLines tr)
             <= (if hasAntigravity config then 5 else 3)
             /\ (calls isLite tr = 1 ->
                 List.length (progressLines tr)
                 = if hasAntigravity config then 5 else 3)).
Proof.
  unfold runInstall. each_config config. walk.
  all: cbn [hasAntigravity]; split;
    [ try match goal with
          | |- context [if ?b then 5 else 3] => destruct b
          end;
      vm_compute; repeat constructor
    | intros H; first [discriminate H | reflexivity] ].
Qed.

(** X10.  The total shown in the progress lines of [runInstall] is the
    number of steps of a complete run: no run shows more progress lines
    than the total, and a run that gets as far as [writeLiteConfig] shows
    exactly as many. *)
Theorem shown_total_is_reached
        (W : Type) (handle : forall c : Call, W -> resp c * W) (w : W)
        (args : InstallArgs) (config : InstallConfig) :
  List.length (progressLines (trace (exec handle (runInstall args config) w)))
  <= (if hasAntigravity config then 5 else 3)
  /\ (calls isLite (trace (exec handle (runInstall args config) w)) = 1 ->
      List.length (progressLines (trace (exec handle (runInstall args config) w)))
      = if hasAntigravity config then 5 else 3).
Proof.
  exact (allRuns_exec handle _ _ w (runInstall_progress_count args config)).
Qed.

Lemma shown_total_is_reached_witness :
  List.length
    (progressLines
       (trace (exec scripted
                    (runInstall (mkArgs false (Some "no") (Some "yes") (Some "no"))
                                (mkConfig false true false))
                    (goodHost []))))
  = 3.
Proof.
  apply (@shown_total_is_reached Host scripted (goodHost [])
           (mkArgs false (Some "no") (Some "yes") (Some "no"))
           (mkConfig false true false)).
  reflexivity.
Defined.

(** *** The closing line *)

Lemma runInstall_closing (args : InstallArgs) (config : InstallConfig) :
  allRuns (runInstall args config)
          (fun tr r =>
             exists detected rest,
               tr = ev DetectCurrentConfig detected :: rest
               /\ wasLogged (successLine (isInstalled detected)) tr
                  = match r with Returned 0%Z => true | _ => false end
               /\ wasLogged (successLine (negb (isInstalled detected))) tr = false).
Proof.
  unfold runInstall. each_config config. walk.
  all: eexists; eexists; split; [reflexivity |]; split; reflexivity.
Qed.

(** X11.  [runInstall] writes its closing line exactly when it returns 0,
    and words it as the header of the same run: "Configuration updated!"
    when the detected configuration it read at its start says installed,
    "Installation complete!" otherwise; the other wording is never
    written. *)
Theorem closing_line_matches_header
        (W : Type) (handle : forall c : Call, W -> resp c * W) (w : W)
        (args : InstallArgs) (config : InstallConfig) :
  exists detected rest,
    trace (exec handle (runInstall args config) w)
    = ev DetectCurrentConfig detected :: rest
    /\ wasLogged (successLine (isInstalled detected))
                 (trace (exec handle (runInstall args config) w))
       = match outcome (exec handle (runInstall args config) w) with
         | Returned 0%Z => true
         | _ => false
         end
    /\ wasLogged (successLine (negb (isInstalled detected)))
                 (trace (exec handle (runInstall args config) w))
       = false.
Proof.
  exact (allRuns_exec handle _ _ w (runInstall_closing args config)).
Qed.

(** *** The summary *)

(** X12.  The summary tells the configuration: two configurations with the
    same summary have the same three flags. *)
Theorem summary_tells_the_configuration (c1 c2 : InstallConfig) :
  formatConfigSummary c1 = formatConfigSummary c2 -> c1 = c2.
Proof.
  destruct c1 as [[] [] []], c2 as [[] [] []]; intros H;
    first [reflexivity | vm_compute in H; discriminate H].
Qed.

Lemma summary_tells_the_configuration_witness :
  mkConfig true false true = mkConfig true false true.
Proof.
  apply summary_tells_the_configuration. reflexivity.
Defined.

(** *** A missing host in the interactive mode *)

Lemma runInstall_missing (args : InstallArgs) (config : InstallConfig) :
  allRuns (runInstall args config)
          (fun tr r =>
             existsb resolvedFalse tr = true -> preflightCalls tr = (1, 1, 0, 0)).
Proof.
  unfold runInstall. each_config config. walk.
  all: cbn [existsb resolvedFalse installedAnswer ev negb orb];
    first [discriminate | intros _; reflexivity].
Qed.

Lemma install_interactive_missing (args : InstallArgs) :
  tui args = true ->
  allRuns (install args)
          (fun tr r =>
             existsb resolvedFalse tr = true ->
             preflightCalls tr = (1, 1, 0, 0)
             \/ preflightCalls tr = (2, 2, 1, 3)).
Proof.
  intros Ht. unfold install. rewrite Ht. cbn [negb]. walk.
  all: try (cbn [existsb resolvedFalse installedAnswer ev negb orb];
            first [discriminate | intros _; left; reflexivity]).
  all: eapply allRuns_mono; [| apply runInstall_missing].
  all: intros tr r H Hf; right.
  all: cbn [existsb resolvedFalse installedAnswer ev negb orb] in Hf.
  all: specialize (H Hf); injection H as H1 H2 H3 H4.
  all: unfold preflightCalls; rewrite !calls_cons, H1, H2, H3, H4; reflexivity.
Qed.

(** X13.  In an interactive run, [isOpenCodeInstalled] resolves false in
    one of two places.  Either at the check [install] makes before the
    questions: then nothing was asked or read, the detected configuration
    was read once and the version never.  Or at the check of [runInstall]:
    then the three questions were asked, and the detected configuration was
    read twice and the version once. *)
Theorem interactive_missing_host
        (W : Type) (handle : forall c : Call, W -> resp c * W) (w : W)
        (args : InstallArgs) :
  tui args = true ->
  existsb resolvedFalse (trace (exec handle (install args) w)) = true ->
  preflightCalls (trace (exec handle (install args) w)) = (1, 1, 0, 0)
  \/ preflightCalls (trace (exec handle (install args) w)) = (2, 2, 1, 3).
Proof.
  intros Ht.
  exact (allRuns_exec handle _ _ w (install_interactive_missing args Ht)).
Qed.

Lemma interactive_missing_host_witness :
  preflightCalls (trace (exec scripted (install interactive) bareHost))
  = (1, 1, 0, 0).
Proof.
  destruct (@interactive_missing_host Host scripted bareHost interactive)
    as [H | H].
  - reflexivity.
  - reflexivity.
  - exact H.
  - vm_compute in H. discriminate H.
Defined.

(** *** From the answers to the collaborators *)

Lemma allRuns_both (A : Type) (p : Prog A) (P Q : list Ev -> Res A -> Prop) :
  allRuns p P -> allRuns p Q -> allRuns p (fun tr r => P tr r /\ Q tr r).
Proof.
  revert P Q. induction p as [a | | c k IH]; intros P Q HP HQ; simpl in *.
  - split; assumption.
  - split; assumption.
  - intros x. apply (IH x (fun tr r => P (ev c x :: tr) r)
                          (fun tr r => Q (ev c x :: tr) r)); auto.
Qed.

Lemma unprompted_readOutcomes (tr : list Ev) :
  existsb isPrompting tr = false -> readOutcomes tr = [].
Proof.
  induction tr as [| e tr IH]; [reflexivity |].
  simpl. intros H. apply orb_false_iff in H. destruct H as [He Ht].
  destruct e as [[] x]; simpl in *; try discriminate He; auto.
Qed.





(** *** The step count in each mode *)

Lemma progressLines_bullets (errs : list string) (tr : list Ev) :
  progressLines (bullets errs ++ tr) = progressLines tr.
Proof.
  unfold progressLines. rewrite loggedLines_app, filter_app, loggedLines_bullets.
  assert (H : filter isProgress (map bulletLine errs) = []).
  { induction errs as [| err errs IH]; [reflexivity | exact IH]. }
  rewrite H. reflexivity.
Qed.

Lemma runInstall_progress_unprompted (args : InstallArgs) (config : InstallConfig) :
  allRuns (runInstall args config)
          (fun tr r =>
             (exists messages,
                messages <> []
                /\ progressLines tr
                   = numbered 1 (if hasAntigravity config then 5 else 3) messages)
             /\ readOutcomes tr = []).
Proof.
  apply allRuns_both.
  - apply runInstall_progress.
  - eapply allRuns_mono; [| apply runInstall_quiet].
    intros tr r [_ H]. apply unprompted_readOutcomes. exact H.
Qed.

Lemma install_interactive_progress (args : InstallArgs) :
  tui args = true ->
  allRuns (install args)
          (fun tr r =>
             exists detected rest,
               tr = ev DetectCurrentConfig detected :: rest
               /\ (exists lines, progressLines tr = preflightLine :: lines)
               /\ forall v1 v2 v3,
                    readOutcomes tr = [ReadValue v1; ReadValue v2; ReadValue v3] ->
                    exists messages,
                      messages <> []
                      /\ progressLines tr
                         = preflightLine
                           :: numbered 1
                                (if resolved (detectedAntigravity detected) v1
                                 then 5 else 3)
                                messages).
Proof.
  intros Ht. unfold install. rewrite Ht. cbn [negb]. walk.
  all: unfold_prog.
  all: try match goal with
           | |- exists detected rest, _ =>
               eexists; eexists; split; [reflexivity |];
               split; [exists []; vm_compute; reflexivity |];
               intros v1 v2 v3 Hread; cbn in Hread; discriminate Hread
           end.
  all: eapply allRuns_mono; [| apply runInstall_progress_unprompted].
  all: intros tr r [[messages [Hm Hp]] Hq].
  all: cbn [hasAntigravity] in Hp; rewrite interpret_resolved in Hp.
  all: eexists; eexists; split; [reflexivity |].
  all: match goal with
       | |- context [progressLines (?e :: ?l)] =>
           assert (Hl : progressLines (e :: l) = preflightLine :: progressLines tr)
             by (vm_compute; reflexivity)
       end.
  all: rewrite Hl, Hp.
  all: split; [eexists; reflexivity |].
  all: intros v1 v2 v3 Hread.
  all: cbn [readOutcomes ev] in Hread; rewrite Hq in Hread.
  all: injection Hread as -> _ _.
  all: exists messages; split; [exact Hm | reflexivity].
Qed.

(** C4 fails in the interactive mode.  With Antigravity answered yes the
    run succeeds, and the first progress line the user sees is the one of
    the check [install] makes before the questions, which shows a total of
    1; the five lines of [runInstall] follow with a total of 5.  So the
    totals shown during the run are not all 5, and the total changes. *)
Lemma interactive_run_shows_one_of_one :
  let run := exec scripted (install interactive)
                  (goodHost [ReadValue (Some ("y" ++ LF)); enter; enter]) in
  outcome run = Returned 0%Z
  /\ progressLines (trace run)
     = stepLine 1 1 "Checking OpenCode installation..."
       :: numbered 1 5 [ "Checking OpenCode installation...";
                         "Adding oh-my-opencode-slim plugin...";
                         "Adding auth plugins...";
                         "Adding provider configurations...";
                         "Writing oh-my-opencode-slim configuration..." ]
  /\ ~ (exists messages, progressLines (trace run) = numbered 1 5 messages).
Proof.
  split; [reflexivity |]. split; [reflexivity |].
  intros [messages H]. destruct messages as [| m messages].
  - discriminate H.
  - vm_compute in H. discriminate H.
Qed.

(** C4, amended.  In every run of [runInstall] the progress lines are
    numbered from 1 and every one of them shows the same total, 5 when
    [hasAntigravity] is true and 3 otherwise; there is at least one.  A
    non-interactive run whose flags pass validation shows these lines, for
    the configuration of its flags, and no other; one whose flags fail
    validation shows no progress line.  An interactive run first shows the
    line of the check [install] makes before the questions, numbered 1 of
    1; when its three reads settle, the lines of [runInstall] follow,
    numbered from 1 with the total 5 or 3 of the configuration resolved
    from the first answer and the detected Antigravity flag. *)
Theorem step_count_is_fixed_per_orchestration
        (W : Type) (handle : forall c : Call, W -> resp c * W) (w : W)
        (args : InstallArgs) (config : InstallConfig) :
  (exists messages,
     messages <> []
     /\ progressLines (trace (exec handle (runInstall args config) w))
        = numbered 1 (if hasAntigravity config then 5 else 3) messages)
  /\ (tui args = false -> valid (validateNonTuiArgs args) = true ->
      exists messages,
        messages <> []
        /\ progressLines (trace (exec handle (install args) w))
           = numbered 1 (if hasAntigravity (argsToConfig args) then 5 else 3)
                      messages)
  /\ (tui args = false -> valid (validateNonTuiArgs args) = false ->
      progressLines (trace (exec handle (install args) w)) = [])
  /\ (tui args = true ->
      exists detected rest,
        trace (exec handle (install args) w)
        = ev DetectCurrentConfig detected :: rest
        /\ (exists lines,
              progressLines (trace (exec handle (install args) w))
              = preflightLine :: lines)
        /\ forall v1 v2 v3,
             readOutcomes (trace (exec handle (install args) w))
             = [ReadValue v1; ReadValue v2; ReadValue v3] ->
             exists messages,
               messages <> []
               /\ progressLines (trace (exec handle (install args) w))
                  = preflightLine
                    :: numbered 1
                         (if resolved (detectedAntigravity detected) v1
                          then 5 else 3)
                         messages).
Proof.
  split; [| split; [| split]].
  - exact (allRuns_exec handle _ _ w (runInstall_progress args config)).
  - intros Ht Hv. unfold install. rewrite Ht, Hv. cbn [negb].
    exact (allRuns_exec handle _ _ w
             (runInstall_progress args (argsToConfig args))).
  - intros Ht Hv.
    destruct (allRuns_exec handle _ _ w (install_invalid args Ht Hv)) as [Htr _].
    rewrite Htr. unfold validationReport.
    change (headerEvents false
            ++ ev (ConsoleLog (errorLine "Validation failed:")) tt :: ?l)%list
      with ((headerEvents false
             ++ [ev (ConsoleLog (errorLine "Validation failed:")) tt]) ++ l)%list.
    unfold progressLines at 1. rewrite loggedLines_app, filter_app.
    change (filter isProgress (loggedLines ?l)) with (progressLines l).
    rewrite progressLines_bullets. reflexivity.
  - intros Ht.
    exact (allRuns_exec handle _ _ w (install_interactive_progress args Ht)).
Qed.

Lemma step_count_is_fixed_per_orchestration_witness :
  (exists messages,
     messages <> []
     /\ progressLines
          (trace (exec scripted
                       (install (mkArgs false (Some "yes") (Some "no") (Some "no")))
                       (goodHost [])))
        = numbered 1 5 messages)
  /\ progressLines
       (trace (exec scripted (install (mkArgs false None None None))
                    (goodHost [])))
     = []
  /\ exists lines,
       progressLines
         (trace (exec scripted (install interactive)
                      (goodHost [ReadValue (Some ("y" ++ LF)); enter; enter])))
       = preflightLine :: lines.
Proof.
  destruct (@step_count_is_fixed_per_orchestration Host scripted (goodHost [])
              (mkArgs false (Some "yes") (Some "no") (Some "no"))
              (mkConfig true false false)) as [_ [H1 _]].
  destruct (@step_count_is_fixed_per_orchestration Host scripted (goodHost [])
              (mkArgs false None None None)
              (mkConfig true false false)) as [_ [_ [H2 _]]].
  destruct (@step_count_is_fixed_per_orchestration Host scripted
              (goodHost [ReadValue (Some ("y" ++ LF)); enter; enter])
              interactive (mkConfig true false false)) as [_ [_ [_ H3]]].
  split; [| split].
  - apply H1; reflexivity.
  - apply H2; reflexivity.
  - destruct (H3 eq_refl) as [detected [rest [_ [H _]]]]. exact H.
Defined.
